(** * Omi audio streaming service: WAV framing and fan-out orchestration

    A shallow embedding of [main.py]: the WAV header builder
    [create_wav_header], the Hume client wrapper [analyze_audio_with_hume],
    the storage uploader [upload_to_gcs] and the request handler
    [handle_audio_stream], with the properties the design document states
    about them. *)

From Stdlib Require Import ZArith QArith Lia List String Ascii.
From Stdlib.Strings Require Import Byte.
From stdpp Require Import gmap strings list pretty.
Import ListNotations.

Local Close Scope Q_scope.
Local Open Scope Z_scope.

(** ** Python exceptions and fallible computations *)

(** The exception classes the program raises or catches.  [Exception] stands
    for any other subclass of Python's [Exception] coming out of a library
    (the Hume SDK, the storage SDK, base64/json decoding); [cls] is its class
    name and [msg] what [str(e)] shows. *)
Inductive exn : Type :=
| HTTPException (status_code : Z) (detail : string)
| ValueError (msg : string)
| OverflowError (msg : string)
| OSError (msg : string)
| Exception (cls : string) (msg : string).

(** [str(e)].  Starlette prints an [HTTPException] as ["<status>: <detail>"];
    the built-in classes print their single argument. *)
Definition exn_str (e : exn) : string :=
  match e with
  | HTTPException s d => pretty s +:+ ": " +:+ d
  | ValueError m | OverflowError m | OSError m | Exception _ m => m
  end.

Definition is_HTTPException (e : exn) : bool :=
  match e with HTTPException _ _ => true | _ => false end.

Inductive result (A : Type) : Type :=
| Ok (a : A)
| Raise (e : exn).
Arguments Ok {A} a.
Arguments Raise {A} e.

Module Res.

Definition bind {A B} (r : result A) (k : A -> result B) : result B :=
  match r with
  | Ok a => k a
  | Raise e => Raise e
  end.

End Res.

Notation "x <-! r ; k" := (Res.bind r (fun x => k))
  (at level 100, r at next level, right associativity, only parsing).

(** ** Bytes *)

(** The byte whose value is [z mod 256]. *)
Definition byte_of_Z (z : Z) : byte :=
  match Byte.of_N (Z.to_N (z mod 256)) with
  | Some b => b
  | None => x00
  end.

Definition Z_of_byte (b : byte) : Z := Z.of_N (Byte.to_N b).

(** The [length] least significant base-256 digits of [n], least
    significant first. *)
Fixpoint le_bytes (length : nat) (n : Z) : list byte :=
  match length with
  | O => []
  | S k => byte_of_Z n :: le_bytes k (n / 256)
  end.

(** [n.to_bytes(length, 'little')] for an unsigned conversion: Python raises
    [OverflowError] on a negative [n] and on an [n] that needs more than
    [length] bytes. *)
Definition to_bytes (n : Z) (length : nat) : result (list byte) :=
  if n <? 0 then Raise (OverflowError "can't convert negative int to unsigned")
  else if 256 ^ Z.of_nat length <=? n then Raise (OverflowError "int too big to convert")
  else Ok (le_bytes length n).

(** [int.from_bytes(bs, 'little')]. *)
Fixpoint from_bytes (bs : list byte) : Z :=
  match bs with
  | [] => 0
  | b :: rest => Z_of_byte b + 256 * from_bytes rest
  end.

(** [l[off : off + n]]. *)
Definition slice {A} (off n : nat) (l : list A) : list A :=
  firstn n (skipn off l).

(** [len(l)] as a Python integer. *)
Definition len {A} (l : list A) : Z := Z.of_nat (length l).

(** ** The WAV header *)

Definition b_RIFF : list byte :=
  Eval cbv in list_byte_of_string "RIFF".
Definition b_WAVE : list byte :=
  Eval cbv in list_byte_of_string "WAVE".
Definition b_fmt : list byte :=
  Eval cbv in list_byte_of_string "fmt ".
Definition b_data : list byte :=
  Eval cbv in list_byte_of_string "data".

(** [create_wav_header(sample_rate, data_size)].  [//] is floor division,
    which is [Z.div] for the positive divisor 8.  The fields are appended in
    the order of the source, so the first conversion that overflows is the
    one whose exception escapes. *)
Definition create_wav_header (sample_rate data_size : Z) : result (list byte) :=
  let num_channels := 1 in
  let bits_per_sample := 16 in
  let byte_rate := sample_rate * num_channels * bits_per_sample / 8 in
  let block_align := num_channels * bits_per_sample / 8 in
  (* RIFF header *)
  let header := [] in
  let header := header ++ b_RIFF in
  riff_size <-! to_bytes (36 + data_size) 4;
  let header := header ++ riff_size in
  let header := header ++ b_WAVE in
  (* fmt subchunk *)
  let header := header ++ b_fmt in
  subchunk_size <-! to_bytes 16 4;
  let header := header ++ subchunk_size in
  audio_format <-! to_bytes 1 2;
  let header := header ++ audio_format in
  channels <-! to_bytes num_channels 2;
  let header := header ++ channels in
  rate <-! to_bytes sample_rate 4;
  let header := header ++ rate in
  brate <-! to_bytes byte_rate 4;
  let header := header ++ brate in
  align <-! to_bytes block_align 2;
  let header := header ++ align in
  bits <-! to_bytes bits_per_sample 2;
  let header := header ++ bits in
  (* data subchunk *)
  let header := header ++ b_data in
  size <-! to_bytes data_size 4;
  let header := header ++ size in
  Ok header.

(** What the design document asks of a framed artifact [header + payload]:
    its length, the nine integer fields of the header read back
    little-endian at their offsets, and the four chunk tags. *)
Record framed (sample_rate : Z) (payload wav_data : list byte) : Prop := {
  framed_length : len wav_data = len payload + 44;
  framed_riff_tag : slice 0 4 wav_data = b_RIFF;
  framed_riff_size : from_bytes (slice 4 4 wav_data) = 36 + len payload;
  framed_wave_tag : slice 8 4 wav_data = b_WAVE;
  framed_fmt_tag : slice 12 4 wav_data = b_fmt;
  framed_fmt_size : from_bytes (slice 16 4 wav_data) = 16;
  framed_format : from_bytes (slice 20 2 wav_data) = 1;
  framed_channels : from_bytes (slice 22 2 wav_data) = 1;
  framed_rate : from_bytes (slice 24 4 wav_data) = sample_rate;
  framed_byte_rate : from_bytes (slice 28 4 wav_data) = sample_rate * 2;
  framed_block_align : from_bytes (slice 32 2 wav_data) = 2;
  framed_bits : from_bytes (slice 34 2 wav_data) = 16;
  framed_data_tag : slice 36 4 wav_data = b_data;
  framed_data_size : from_bytes (slice 40 4 wav_data) = len payload;
  framed_payload : skipn 44 wav_data = payload
}.

(** The 44 bytes of a header, given the four encoded variable fields. *)
Definition header_layout (riff_size rate brate size : list byte) : list byte :=
  b_RIFF ++ riff_size ++ b_WAVE ++ b_fmt ++ le_bytes 4 16 ++ le_bytes 2 1 ++
  le_bytes 2 1 ++ rate ++ brate ++ le_bytes 2 2 ++ le_bytes 2 16 ++ b_data ++ size.

(** The arguments every field of the header has room for. *)
Definition header_args_in_range (sample_rate data_size : Z) : Prop :=
  0 <= sample_rate < 2 ^ 31 /\ 0 <= data_size /\ 36 + data_size < 2 ^ 32.

(** The framing step of the handler: header, then [wav_header + audio_data]. *)
Definition frame (sample_rate : Z) (audio_data : list byte) : result (list byte) :=
  wav_header <-! create_wav_header sample_rate (len audio_data);
  Ok (wav_header ++ audio_data).

(** ** The service: values, collaborators and effects *)

Section Service.

(** Python floats only pass through the program (scores and time stamps of
    the remote reply are copied into the response), so their type is left
    open. *)
Context {float : Type}.

(** JSON-like Python values.  A dict keeps its insertion order. *)
#[warnings="-register-all"]
Inductive pyval : Type :=
| PyNone
| PyBool (b : bool)
| PyInt (n : Z)
| PyFloat (x : float)
| PyStr (s : string)
| PyList (items : list pyval)
| PyDict (entries : list (string * pyval)).

Definition dict : Type := list (string * pyval).

(** [d.get(key)] *)
Fixpoint dict_get (d : dict) (key : string) : option pyval :=
  match d with
  | [] => None
  | (k, v) :: rest => if String.eqb k key then Some v else dict_get rest key
  end.

(** [d[key] = v]: replaces in place, or appends a new key at the end. *)
Fixpoint dict_set (d : dict) (key : string) (v : pyval) : dict :=
  match d with
  | [] => [(key, v)]
  | (k, v0) :: rest =>
      if String.eqb k key then (k, v) :: rest else (k, v0) :: dict_set rest key v
  end.

(** Truth value of [str | None] and of [dict | None]. *)
Definition truthy_str (s : option string) : bool :=
  match s with
  | Some s => negb (String.eqb s "")
  | None => false
  end.

Definition truthy_dict (d : option dict) : bool :=
  match d with
  | Some [] | None => false
  | Some (_ :: _) => true
  end.

(** *** The reply of the Hume streaming socket

    The program reads the reply through [hasattr] and attribute access, so an
    attribute is an [option]: [None] when the object does not have it.  The
    value of [prosody], [begin] and [end] may itself be Python's [None]. *)
Record hume_emotion : Type := { emotion_name : string; emotion_score : float }.

Record hume_time : Type := {
  time_begin : option (option float);
  time_end : option (option float)
}.

Record hume_prediction : Type := {
  prediction_time : hume_time;
  prediction_emotions : list hume_emotion
}.

Record hume_prosody : Type := { prosody_predictions : list hume_prediction }.

Record hume_result : Type := { result_prosody : option (option hume_prosody) }.

(** *** Collaborators

    Everything the program does not compute itself: the process environment,
    the clock, the temporary directory, the Hume SDK, the storage SDK and the
    [json] module.  A library call either returns or raises; the temporary
    file operations raise [OSError] only.  Of [json] the program needs which
    floats [json.dumps(..., allow_nan=False)] accepts ([isfinite]: all but
    NaN and the two infinities) and the text of the [ValueError] it raises on
    another one, which differs between versions of CPython. *)
Record credentials : Type := { project_id : option string }.

Record Externals : Type := {
  environ : gmap string string;
  utcnow_strftime : string;
  tmp_name : string;
  tmp_create_error : option string;
  tmp_write_error : option string;
  hume_connect : string -> result unit;
  hume_send_file : string -> list byte -> result (option hume_result);
  hume_close : string -> result unit;
  decode_credentials : string -> result credentials;
  storage_client : credentials -> result unit;
  upload_from_filename : string -> string -> list byte -> result unit;
  isfinite : float -> bool;
  json_float_error : float -> string
}.

(** *** Observable effects *)
Inductive event : Type :=
| Print (line : string)
| CallCreateWavHeader (sample_rate data_size : Z)
| CallNamedTemporaryFile (path : string)
| CallWrite (path : string)
| CallHumeConnect
| CallHumeSendFile (path : string)
| CallDecodeCredentials
| CallStorageClient
| CallUpload (path bucket blob : string)
| CallRemove (path : string).

(** The file system and the chronological list of effects. *)
Record World : Type := {
  fs : gmap string (list byte);
  trace : list event
}.

(** A computation with effects on the world that returns or raises. *)
Definition M (A : Type) : Type := World -> result A * World.

Definition ret {A} (a : A) : M A := fun w => (Ok a, w).
Definition raise {A} (e : exn) : M A := fun w => (Raise e, w).
Definition lift {A} (r : result A) : M A := fun w => (r, w).

Definition bind {A B} (m : M A) (k : A -> M B) : M B :=
  fun w =>
    match m w with
    | (Ok a, w') => k a w'
    | (Raise e, w') => (Raise e, w')
    end.

(** [try: m except Exception as e: handler(e)]; every [exn] is a subclass of
    [Exception]. *)
Definition try_except {A} (m : M A) (handler : exn -> M A) : M A :=
  fun w =>
    match m w with
    | (Ok a, w') => (Ok a, w')
    | (Raise e, w') => handler e w'
    end.

(** [try: m finally: cleanup]: the cleanup runs on both exits; an exception
    of the cleanup replaces the outcome of [m]. *)
Definition try_finally {A} (m : M A) (cleanup : M unit) : M A :=
  fun w =>
    let '(r, w') := m w in
    match cleanup w' with
    | (Ok _, w'') => (r, w'')
    | (Raise e, w'') => (Raise e, w'')
    end.

Definition emit (e : event) : M unit :=
  fun w => (Ok tt, {| fs := fs w; trace := trace w ++ [e] |}).

Definition print (line : string) : M unit := emit (Print line).

Definition read_file (path : string) : M (list byte) :=
  fun w =>
    match fs w !! path with
    | Some data => (Ok data, w)
    | None => (Raise (OSError ("[Errno 2] No such file or directory: '" +:+ path +:+ "'")), w)
    end.

Definition put_file (path : string) (data : list byte) : M unit :=
  fun w => (Ok tt, {| fs := <[path := data]> (fs w); trace := trace w |}).

(** [os.path.exists(path)] *)
Definition os_path_exists (path : string) : M bool :=
  fun w => (Ok (bool_decide (is_Some (fs w !! path))), w).

(** [os.remove(path)] *)
Definition os_remove (path : string) : M unit :=
  fun w =>
    let w1 := {| fs := fs w; trace := trace w ++ [CallRemove path] |} in
    match fs w !! path with
    | Some _ => (Ok tt, {| fs := delete path (fs w1); trace := trace w1 |})
    | None => (Raise (OSError ("[Errno 2] No such file or directory: '" +:+ path +:+ "'")), w1)
    end.


Notation "'let*' x := m 'in' k" := (bind m (fun x => k))
  (at level 10, x name, m at level 100, k at level 200, only parsing).

(** ** The program *)

Variable ext : Externals.

(** [os.getenv(key)] *)
Definition os_getenv (key : string) : option string := environ ext !! key.

(** [x.attr if hasattr(x, 'attr') else None] *)
Definition attr_or_None (attr : option (option float)) : pyval :=
  match attr with
  | Some (Some x) => PyFloat x
  | Some None | None => PyNone
  end.

Definition format_emotion (emotion : hume_emotion) : pyval :=
  PyDict [("name", PyStr (emotion_name emotion));
          ("score", PyFloat (emotion_score emotion))].

Definition format_prediction (prediction : hume_prediction) : pyval :=
  PyDict [("time",
           PyDict [("begin", attr_or_None (time_begin (prediction_time prediction)));
                   ("end", attr_or_None (time_end (prediction_time prediction)))]);
          ("emotions",
           PyList (map format_emotion (prediction_emotions prediction)))].

(** The [for prediction in predictions] loop, appending to
    [formatted_results]. *)
Definition format_results (predictions : list hume_prediction) : list pyval :=
  fold_left (fun formatted_results prediction =>
               formatted_results ++ [format_prediction prediction])
            predictions [].

Definition no_predictions : dict :=
  [("success", PyBool false);
   ("error", PyStr "No prosody predictions returned");
   ("predictions", PyList [])].

Definition analysis_failed (e : exn) : dict :=
  [("success", PyBool false);
   ("error", PyStr (exn_str e));
   ("predictions", PyList [])].

(** What the [if result and hasattr(result, 'prosody') and result.prosody]
    statement returns. *)
Definition extract_prosody (result : option hume_result) : dict :=
  match result with
  | Some {| result_prosody := Some (Some prosody) |} =>
      let predictions := prosody_predictions prosody in
      let formatted_results := format_results predictions in
      [("success", PyBool true);
       ("predictions", PyList formatted_results);
       ("total_predictions", PyInt (len formatted_results))]
  | _ => no_predictions
  end.

(** The body of the [try] of [analyze_audio_with_hume]: connect, send the
    file, read the reply; leaving the [async with] block closes the socket on
    both exits. *)
Definition hume_session (hume_api_key wav_file_path : string) : M dict :=
  let* _ := emit CallHumeConnect in
  let* _ := lift (hume_connect ext hume_api_key) in
  try_finally
    (let* _ := emit (CallHumeSendFile wav_file_path) in
     let* data := read_file wav_file_path in
     let* result := lift (hume_send_file ext hume_api_key data) in
     ret (extract_prosody result))
    (lift (hume_close ext hume_api_key)).

(** [analyze_audio_with_hume(wav_file_path)].  The API key test stands before
    the [try]. *)
Definition analyze_audio_with_hume (wav_file_path : string) : M dict :=
  let hume_api_key := os_getenv "HUME_API_KEY" in
  if negb (truthy_str hume_api_key) then
    raise (ValueError "HUME_API_KEY environment variable not set")
  else
    let hume_api_key := default "" hume_api_key in
    try_except
      (hume_session hume_api_key wav_file_path)
      (fun e =>
         let* _ := print ("Error analyzing audio with Hume: " +:+ exn_str e) in
         ret (analysis_failed e)).

(** [upload_to_gcs(file_path, bucket_name, destination_blob_name)] *)
Definition upload_to_gcs (file_path bucket_name destination_blob_name : string)
  : M string :=
  let credentials_json := os_getenv "GOOGLE_APPLICATION_CREDENTIALS_JSON" in
  if negb (truthy_str credentials_json) then
    raise (ValueError "GOOGLE_APPLICATION_CREDENTIALS_JSON environment variable not set")
  else
    let credentials_json := default "" credentials_json in
    let* creds :=
      try_except
        (let* _ := emit CallDecodeCredentials in
         lift (decode_credentials ext credentials_json))
        (fun e => raise (ValueError ("Failed to decode credentials: " +:+ exn_str e))) in
    let* _ := emit CallStorageClient in
    let* _ := lift (storage_client ext creds) in
    let* _ := emit (CallUpload file_path bucket_name destination_blob_name) in
    let* data := read_file file_path in
    let* _ := lift (upload_from_filename ext bucket_name destination_blob_name data) in
    ret ("gs://" +:+ bucket_name +:+ "/" +:+ destination_blob_name).

(** *** The request handler *)

Record Request : Type := {
  body : list byte;
  sample_rate : Z;
  uid : string;
  analyze_emotion : bool;
  save_to_gcs : bool
}.

Record JSONResponse : Type := {
  status_code : Z;
  content : dict
}.

(** [with tempfile.NamedTemporaryFile(delete=False, suffix='.wav') as
    temp_file]: the file is created empty under a name of its own, written,
    and kept when the block is left, also when the write fails. *)
Definition write_temp_file (wav_data : list byte) : M string :=
  let* _ := emit (CallNamedTemporaryFile (tmp_name ext)) in
  match tmp_create_error ext with
  | Some msg => raise (OSError msg)
  | None =>
      let* _ := put_file (tmp_name ext) [] in
      let* _ := emit (CallWrite (tmp_name ext)) in
      match tmp_write_error ext with
      | Some msg => raise (OSError msg)
      | None =>
          let* _ := put_file (tmp_name ext) wav_data in
          ret (tmp_name ext)
      end
  end.

(** [hume_results.get('total_predictions', 0)], which is an integer in every
    dict the analyzer returns. *)
Definition total_predictions (hume_results : dict) : Z :=
  match dict_get hume_results "total_predictions" with
  | Some (PyInt n) => n
  | _ => 0
  end.

(** The analysis step of the handler. *)
Definition analysis_stage (request : Request) (temp_file_path : string)
  : M (option dict) :=
  if analyze_emotion request then
    let* _ := print ("Analyzing audio with Hume AI for user " +:+ uid request) in
    let* hume_results := analyze_audio_with_hume temp_file_path in
    let* _ := print ("Hume analysis complete: "
                     +:+ pretty (total_predictions hume_results)
                     +:+ " predictions") in
    ret (Some hume_results)
  else ret None.

(** The upload step of the handler. *)
Definition upload_stage (request : Request) (temp_file_path filename : string)
  : M (option string) :=
  if save_to_gcs request then
    let bucket_name := os_getenv "GCS_BUCKET_NAME" in
    if negb (truthy_str bucket_name) then
      let* _ := print "Warning: GCS_BUCKET_NAME not set, skipping GCS upload" in
      ret None
    else
      let bucket_name := default "" bucket_name in
      try_except
        (let* gcs_path := upload_to_gcs temp_file_path bucket_name filename in
         let* _ := print ("Audio file uploaded successfully: " +:+ gcs_path) in
         ret (Some gcs_path))
        (fun e =>
           let* _ := print ("Warning: Failed to upload to GCS: " +:+ exn_str e) in
           (* Continue processing even if GCS upload fails *)
           ret None)
  else ret None.

(** The dict the handler builds for the response. *)
Definition build_response (request : Request) (filename timestamp : string)
    (gcs_path : option string) (hume_results : option dict) : dict :=
  let response_data :=
    [("message", PyStr "Audio processed successfully");
     ("filename", PyStr filename);
     ("uid", PyStr (uid request));
     ("sample_rate", PyInt (sample_rate request));
     ("data_size_bytes", PyInt (len (body request)));
     ("timestamp", PyStr timestamp)] in
  (* Add GCS path if available *)
  let response_data :=
    if truthy_str gcs_path
    then dict_set response_data "gcs_path" (PyStr (default "" gcs_path))
    else response_data in
  (* Add Hume results if available *)
  let response_data :=
    if truthy_dict hume_results
    then dict_set response_data "hume_analysis" (PyDict (default [] hume_results))
    else response_data in
  response_data.

(** The first float of a value, in the order in which [json.dumps] walks it,
    that [allow_nan=False] refuses. *)
Fixpoint first_nonfinite (v : pyval) : option float :=
  match v with
  | PyFloat x => if isfinite ext x then None else Some x
  | PyList items =>
      (fix walk (l : list pyval) : option float :=
         match l with
         | [] => None
         | item :: rest =>
             match first_nonfinite item with
             | Some x => Some x
             | None => walk rest
             end
         end) items
  | PyDict entries =>
      (fix walk (l : list (string * pyval)) : option float :=
         match l with
         | [] => None
         | (_, item) :: rest =>
             match first_nonfinite item with
             | Some x => Some x
             | None => walk rest
             end
         end) entries
  | PyNone | PyBool _ | PyInt _ | PyStr _ => None
  end.

(** [JSONResponse(status_code=..., content=...)]: Starlette renders the
    content in the constructor with [json.dumps(content, allow_nan=False)],
    which raises [ValueError] on a float that is not finite. *)
Definition new_JSONResponse (status : Z) (response_data : dict)
  : result JSONResponse :=
  match first_nonfinite (PyDict response_data) with
  | Some x => Raise (ValueError (json_float_error ext x))
  | None => Ok {| status_code := status; content := response_data |}
  end.

(** The inner [try ... finally] of the handler: fan out, respond, and remove
    the temporary file on the way out. *)
Definition process_temp_file (request : Request)
    (temp_file_path filename timestamp : string) : M JSONResponse :=
  try_finally
    (let* hume_results := analysis_stage request temp_file_path in
     let* gcs_path := upload_stage request temp_file_path filename in
     let response_data := build_response request filename timestamp gcs_path hume_results in
     lift (new_JSONResponse 200 response_data))
    ((* Clean up temporary file *)
     let* found := os_path_exists temp_file_path in
     if found then os_remove temp_file_path else ret tt).

(** The body of the outer [try] of the handler. *)
Definition handle_audio_stream_try (request : Request) : M JSONResponse :=
  let audio_data := body request in
  match audio_data with
  | [] => raise (HTTPException 400 "No audio data received")
  | _ :: _ =>
      let timestamp := utcnow_strftime ext in
      let filename := uid request +:+ "_" +:+ timestamp +:+ ".wav" in
      let* _ := emit (CallCreateWavHeader (sample_rate request) (len audio_data)) in
      let* wav_header := lift (create_wav_header (sample_rate request) (len audio_data)) in
      let wav_data := wav_header ++ audio_data in
      let* temp_file_path := write_temp_file wav_data in
      process_temp_file request temp_file_path filename timestamp
  end.

(** [handle_audio_stream]: an [HTTPException] is raised again as it is, any
    other exception becomes a 500. *)
Definition handle_audio_stream (request : Request) : M JSONResponse :=
  try_except (handle_audio_stream_try request)
    (fun e =>
       match e with
       | HTTPException _ _ => raise e
       | _ =>
           let* _ := print ("Error processing audio: " +:+ exn_str e) in
           raise (HTTPException 500 ("Internal server error: " +:+ exn_str e))
       end).

(** The HTTP status the caller sees. *)
Definition http_status (r : result JSONResponse) : option Z :=
  match r with
  | Ok response => Some (status_code response)
  | Raise (HTTPException status _) => Some status
  | Raise _ => None
  end.

End Service.

(** ** Notions used in the statements *)

(** The framing property for one sample rate and one payload: the framing
    step returns, and what it returns is a framed artifact. *)
Definition frame_spec (sample_rate : Z) (payload : list byte) : Prop :=
  exists wav_data,
    frame sample_rate payload = Ok wav_data /\ framed sample_rate payload wav_data.

(** The range of arguments obtained by bounding the sample rate and the RIFF
    size by their own four-byte fields only. *)
Definition field_width_range (sample_rate data_size : Z) : Prop :=
  0 <= sample_rate < 2 ^ 32 /\ 0 <= 36 + data_size < 2 ^ 32.

(** [needle in hay] on strings. *)
Fixpoint is_infix (needle hay : string) : bool :=
  String.prefix needle hay ||
  match hay with
  | EmptyString => false
  | String _ rest => is_infix needle rest
  end.


(** The analyzer outcome "unavailable, with this reason". *)
Definition unavailable {float : Type} (reason : string) (d : @dict float) : Prop :=
  dict_get d "success" = Some (PyBool false) /\
  dict_get d "error" = Some (PyStr reason) /\
  dict_get d "predictions" = Some (PyList []).

(** A reply without prediction data as the program tests it: no reply, no
    [prosody] attribute, or a [prosody] that is [None]. *)
Definition lacks_prosody {float : Type} (result : option (@hume_result float)) : bool :=
  match result with
  | Some {| result_prosody := Some (Some _) |} => false
  | _ => true
  end.

(** The (name, score) pairs and the time span of a remote prediction. *)
Definition emotion_pairs {float : Type} (prediction : @hume_prediction float)
  : list (string * float) :=
  map (fun e => (emotion_name e, emotion_score e)) (prediction_emotions prediction).

(** Reading a formatted window back: its (name, score) pairs, in order. *)
Definition read_emotion {float : Type} (v : @pyval float) : option (string * float) :=
  match v with
  | PyDict [("name", PyStr name); ("score", PyFloat score)] => Some (name, score)
  | _ => None
  end.

Definition read_emotions {float : Type} (window : @pyval float)
  : option (list (option (string * float))) :=
  match window with
  | PyDict d =>
      match dict_get d "emotions" with
      | Some (PyList items) => Some (map read_emotion items)
      | _ => None
      end
  | _ => None
  end.

(** Effects of a computation: it leaves the files alone; it raises only
    exceptions of a given kind. *)
Definition preserves_fs {A} (m : M A) : Prop :=
  forall w, fs (snd (m w)) = fs w.

Definition raises_only {A} (P : exn -> Prop) (m : M A) : Prop :=
  forall w e w', m w = (Raise e, w') -> P e.

Definition returns_only {A} (P : A -> Prop) (m : M A) : Prop :=
  forall w a w', m w = (Ok a, w') -> P a.

Definition extends_trace {A} (m : M A) : Prop :=
  forall w, exists events, trace (snd (m w)) = trace w ++ events.

(** The exception of the analyzer for a missing API key. *)
Definition hume_key_error : exn :=
  ValueError "HUME_API_KEY environment variable not set".

Definition log (e : event) (w : World) : World :=
  {| fs := fs w; trace := trace w ++ [e] |}.

(** The world in which the fan-out starts: the artifact is in the temporary
    file and the three steps before it are on the trace. *)
Definition fanout_world {float : Type} (ext : @Externals float) (request : Request)
    (wav_header : list byte) (w : World) : World :=
  {| fs := <[tmp_name ext := wav_header ++ body request]>
             (<[tmp_name ext := []]> (fs w));
     trace := trace w ++
              [CallCreateWavHeader (sample_rate request) (len (body request));
               CallNamedTemporaryFile (tmp_name ext);
               CallWrite (tmp_name ext)] |}.

(** The world in which the handler calls the analyzer. *)
Definition analysis_world {float : Type} (ext : @Externals float) (request : Request)
    (wav_header : list byte) (w : World) : World :=
  log (Print ("Analyzing audio with Hume AI for user " +:+ uid request))
      (fanout_world ext request wav_header w).

(** Every float of the analysis that goes into the response is one that
    [json.dumps] accepts. *)
Definition finite_floats {float : Type} (ext : @Externals float)
    (hume_results : option dict) : Prop :=
  match hume_results with
  | Some d => first_nonfinite ext (PyDict d) = None
  | None => True
  end.

(** The world after the cleanup found and removed the file. *)
Definition removed (path : string) (w : World) : World :=
  {| fs := delete path (fs w); trace := trace w ++ [CallRemove path] |}.

Definition artifact_name {float : Type} (ext : @Externals float) (request : Request) : string :=
  uid request +:+ "_" +:+ utcnow_strftime ext +:+ ".wav".

(** The request gets as far as the fan-out: a payload, a header that fits,
    and a temporary file that could be created and written. *)
Record reaches_fanout {float : Type} (ext : @Externals float) (request : Request)
    (wav_header : list byte) : Prop := {
  reaches_payload : body request <> [];
  reaches_header :
    create_wav_header (sample_rate request) (len (body request)) = Ok wav_header;
  reaches_create : tmp_create_error ext = None;
  reaches_write : tmp_write_error ext = None
}.

(** Does the detail of an error response show the text of the exception? *)
Definition leaks_detail (e : exn) (detail : string) : bool :=
  negb (String.eqb (exn_str e) "") && is_infix (exn_str e) detail.

(** ** Further notions: calls, files and outcomes *)

(** Every event a computation adds to the trace satisfies [Q]. *)
Definition emits_only {A} (Q : event -> Prop) (m : M A) : Prop :=
  forall w, exists events,
    trace (snd (m w)) = trace w ++ events /\ Forall Q events.

(** A computation changes no file but [path]. *)
Definition touches_only {A} (path : string) (m : M A) : Prop :=
  forall w other, other <> path -> fs (snd (m w)) !! other = fs w !! other.

Definition is_hume_call (ev : event) : bool :=
  match ev with
  | CallHumeConnect | CallHumeSendFile _ => true
  | _ => false
  end.

Definition is_storage_call (ev : event) : bool :=
  match ev with
  | CallDecodeCredentials | CallStorageClient | CallUpload _ _ _ => true
  | _ => false
  end.

(** The two dicts the analyzer can return. *)
Definition analysis_shape {float : Type} (d : @dict float) : Prop :=
  (exists windows,
     d = [("success", PyBool true);
          ("predictions", PyList windows);
          ("total_predictions", PyInt (len windows))]) \/
  (exists reason,
     d = [("success", PyBool false);
          ("error", PyStr reason);
          ("predictions", PyList [])]).

(** [gs://bucket/blob] *)
Definition locator (bucket blob : string) : string :=
  "gs://" +:+ bucket +:+ "/" +:+ blob.

(** The calls of the two consumers name the temporary file, and the upload
    names the bucket of the environment and the artifact. *)
Definition call_on_artifact {float : Type} (ext : @Externals float)
    (request : Request) (ev : event) : Prop :=
  match ev with
  | CallHumeSendFile path => path = tmp_name ext
  | CallUpload path bucket blob =>
      path = tmp_name ext /\
      os_getenv ext "GCS_BUCKET_NAME" = Some bucket /\
      blob = artifact_name ext request
  | _ => True
  end.

(** The six entries every response starts with. *)
Definition base_fields {float : Type} (ext : @Externals float) (request : Request)
  : @dict float :=
  [("message", PyStr "Audio processed successfully");
   ("filename", PyStr (artifact_name ext request));
   ("uid", PyStr (uid request));
   ("sample_rate", PyInt (sample_rate request));
   ("data_size_bytes", PyInt (len (body request)));
   ("timestamp", PyStr (utcnow_strftime ext))].

(** What the two stages hand to the response. *)
Definition analysis_entry {float : Type} (request : Request)
    (hume_results : option (@dict float)) : Prop :=
  (analyze_emotion request = false /\ hume_results = None) \/
  (analyze_emotion request = true /\
   exists d, hume_results = Some d /\ analysis_shape d).

Definition archive_entry {float : Type} (ext : @Externals float)
    (request : Request) (gcs_path : option string) : Prop :=
  gcs_path = None \/
  (save_to_gcs request = true /\
   exists bucket,
     os_getenv ext "GCS_BUCKET_NAME" = Some bucket /\ bucket <> "" /\
     gcs_path = Some (locator bucket (artifact_name ext request))).

(** ** Scenarios

    Concrete collaborators and requests, with rational numbers for the
    floats. *)

Definition world0 : World := {| fs := ∅; trace := [] |}.

Definition env_full : gmap string string :=
  {[ "HUME_API_KEY" := "hume-key";
     "GCS_BUCKET_NAME" := "omi-audio";
     "GOOGLE_APPLICATION_CREDENTIALS_JSON" := "eyJwcm9qZWN0X2lkIjogIm9taSJ9" ]}.

Definition env_no_hume_key : gmap string string :=
  {[ "GCS_BUCKET_NAME" := "omi-audio";
     "GOOGLE_APPLICATION_CREDENTIALS_JSON" := "eyJwcm9qZWN0X2lkIjogIm9taSJ9" ]}.


Definition prosody_two_windows : @hume_prosody Q :=
  {| prosody_predictions :=
    [ {| prediction_time := {| time_begin := Some (Some (Qmake 0 1));
                               time_end := Some (Some (Qmake 5 2)) |};
         prediction_emotions :=
           [ {| emotion_name := "Joy"; emotion_score := Qmake 81 100 |};
             {| emotion_name := "Calmness"; emotion_score := Qmake 12 100 |} ] |};
      {| prediction_time := {| time_begin := Some (Some (Qmake 5 2));
                               time_end := None |};
         prediction_emotions :=
           [ {| emotion_name := "Anger"; emotion_score := Qmake 3 100 |};
             {| emotion_name := "Joy"; emotion_score := Qmake 40 100 |} ] |} ] |}.

Definition reply_two_windows : option (@hume_result Q) :=
  Some {| result_prosody := Some (Some prosody_two_windows) |}.

Definition reply_empty_predictions : option (@hume_result Q) :=
  Some {| result_prosody := Some (Some {| prosody_predictions := [] |}) |}.

Definition reply_without_prosody : option (@hume_result Q) :=
  Some {| result_prosody := None |}.

(** Collaborators that differ in the environment, the write of the
    temporary file, the Hume connection, the Hume reply and the upload.
    Every rational is a finite float. *)
Definition scenario (env : gmap string string) (write_error : option string)
    (connect : result unit) (reply : result (option (@hume_result Q)))
    (upload : result unit) : @Externals Q :=
  {| environ := env;
     utcnow_strftime := "20240101_120000_000001";
     tmp_name := "/tmp/tmpk3v9x2.wav";
     tmp_create_error := None;
     tmp_write_error := write_error;
     hume_connect := fun _ => connect;
     hume_send_file := fun _ _ => reply;
     hume_close := fun _ => Ok tt;
     decode_credentials := fun _ => Ok {| project_id := Some "omi" |};
     storage_client := fun _ => Ok tt;
     upload_from_filename := fun _ _ _ => upload;
     isfinite := fun _ => true;
     json_float_error := fun _ => "Out of range float values are not JSON compliant" |}.

Definition ext_all_fine : @Externals Q :=
  scenario env_full None (Ok tt) (Ok reply_two_windows) (Ok tt).

Definition ext_disk_full : @Externals Q :=
  scenario env_full (Some "[Errno 28] No space left on device")
    (Ok tt) (Ok reply_two_windows) (Ok tt).

Definition ext_no_hume_key : @Externals Q :=
  scenario env_no_hume_key None (Ok tt) (Ok reply_two_windows) (Ok tt).


Definition ext_hume_down : @Externals Q :=
  scenario env_full None
    (Raise (Exception "ConnectionError" "connection refused"))
    (Ok reply_two_windows) (Ok tt).

Definition ext_upload_denied : @Externals Q :=
  scenario env_full None (Ok tt) (Ok reply_two_windows)
    (Raise (Exception "Forbidden" "403 caller lacks storage.objects.create")).

Definition ext_empty_predictions : @Externals Q :=
  scenario env_full None (Ok tt) (Ok reply_empty_predictions) (Ok tt).

Definition ext_without_prosody : @Externals Q :=
  scenario env_full None (Ok tt) (Ok reply_without_prosody) (Ok tt).

Definition request_user1 : Request :=
  {| body := [x01; x00; xff; x7f];
     sample_rate := 16000;
     uid := "user1";
     analyze_emotion := true;
     save_to_gcs := true |}.

Definition request_archive_only : Request :=
  {| body := [x01; x00; xff; x7f];
     sample_rate := 16000;
     uid := "user1";
     analyze_emotion := false;
     save_to_gcs := true |}.

Definition request_empty : Request :=
  {| body := [];
     sample_rate := 16000;
     uid := "user1";
     analyze_emotion := true;
     save_to_gcs := true |}.

(** The world of [request_user1] when its temporary file is in place. *)
Definition header_user1 : list byte :=
  header_layout (le_bytes 4 40) (le_bytes 4 16000) (le_bytes 4 32000) (le_bytes 4 4).

Definition env_empty_values : gmap string string :=
  {[ "HUME_API_KEY" := ""; "GCS_BUCKET_NAME" := "" ]}.

Definition ext_empty_values : @Externals Q :=
  scenario env_empty_values None (Ok tt) (Ok reply_two_windows) (Ok tt).

Definition ext_bad_credentials : @Externals Q :=
  {| environ := env_full;
     utcnow_strftime := "20240101_120000_000001";
     tmp_name := "/tmp/tmpk3v9x2.wav";
     tmp_create_error := None;
     tmp_write_error := None;
     hume_connect := fun _ => Ok tt;
     hume_send_file := fun _ _ => Ok reply_two_windows;
     hume_close := fun _ => Ok tt;
     decode_credentials := fun _ => Raise (Exception "Error" "Incorrect padding");
     storage_client := fun _ => Ok tt;
     upload_from_filename := fun _ _ _ => Ok tt;
     isfinite := fun _ => true;
     json_float_error := fun _ => "Out of range float values are not JSON compliant" |}.

Definition ext_no_tmp_dir : @Externals Q :=
  {| environ := env_full;
     utcnow_strftime := "20240101_120000_000001";
     tmp_name := "/tmp/tmpk3v9x2.wav";
     tmp_create_error := Some "[Errno 2] No usable temporary directory found";
     tmp_write_error := None;
     hume_connect := fun _ => Ok tt;
     hume_send_file := fun _ _ => Ok reply_two_windows;
     hume_close := fun _ => Ok tt;
     decode_credentials := fun _ => Ok {| project_id := Some "omi" |};
     storage_client := fun _ => Ok tt;
     upload_from_filename := fun _ _ _ => Ok tt;
     isfinite := fun _ => true;
     json_float_error := fun _ => "Out of range float values are not JSON compliant" |}.

Definition request_negative_rate : Request :=
  {| body := [x01; x00; xff; x7f];
     sample_rate := -8000;
     uid := "user1";
     analyze_emotion := true;
     save_to_gcs := true |}.

Definition request_analysis_only : Request :=
  {| body := [x01; x00; xff; x7f];
     sample_rate := 16000;
     uid := "user1";
     analyze_emotion := true;
     save_to_gcs := false |}.

(** Floats with the three values that [json] refuses, and a reply whose
    second score is NaN. *)
Inductive float64 : Type :=
| Finite (q : Q)
| NaN
| Infinity
| NegInfinity.

Definition float64_isfinite (x : float64) : bool :=
  match x with
  | Finite _ => true
  | NaN | Infinity | NegInfinity => false
  end.

Definition float64_repr (x : float64) : string :=
  match x with
  | Finite _ => "0.0"
  | NaN => "nan"
  | Infinity => "inf"
  | NegInfinity => "-inf"
  end.

Definition reply_nan_score : option (@hume_result float64) :=
  Some {| result_prosody := Some (Some {| prosody_predictions :=
    [ {| prediction_time := {| time_begin := Some (Some (Finite (Qmake 0 1)));
                               time_end := Some (Some (Finite (Qmake 5 2))) |};
         prediction_emotions :=
           [ {| emotion_name := "Joy"; emotion_score := Finite (Qmake 81 100) |};
             {| emotion_name := "Calmness"; emotion_score := NaN |} ] |} ] |}) |}.

Definition ext_nan_score : @Externals float64 :=
  {| environ := env_full;
     utcnow_strftime := "20240101_120000_000001";
     tmp_name := "/tmp/tmpk3v9x2.wav";
     tmp_create_error := None;
     tmp_write_error := None;
     hume_connect := fun _ => Ok tt;
     hume_send_file := fun _ _ => Ok reply_nan_score;
     hume_close := fun _ => Ok tt;
     decode_credentials := fun _ => Ok {| project_id := Some "omi" |};
     storage_client := fun _ => Ok tt;
     upload_from_filename := fun _ _ _ => Ok tt;
     isfinite := float64_isfinite;
     json_float_error := fun x =>
       "Out of range float values are not JSON compliant: " +:+ float64_repr x |}.

(** A world with a file of somebody else. *)
Definition world_other_file : World :=
  {| fs := {[ "/var/data/keep.bin" := [x2a] ]}; trace := [] |}.

(** ** Properties of the byte conversions *)

Lemma Z_of_byte_of_Z z : Z_of_byte (byte_of_Z z) = z mod 256.
Proof.
  unfold Z_of_byte, byte_of_Z.
  assert (Hr : 0 <= z mod 256 < 256) by (apply Z.mod_pos_bound; lia).
  destruct (Byte.of_N (Z.to_N (z mod 256))) as [b|] eqn:E.
  - apply Byte.to_of_N in E. rewrite E. lia.
  - apply Byte.of_N_None_iff in E. lia.
Qed.

Lemma length_le_bytes k n : length (le_bytes k n) = k.
Proof. revert n. induction k as [|k IH]; intros n; simpl; [reflexivity|]. now rewrite IH. Qed.

Lemma from_bytes_le_bytes k n : from_bytes (le_bytes k n) = n mod 256 ^ Z.of_nat k.
Proof.
  revert n. induction k as [|k IH]; intros n.
  - simpl. now rewrite Z.mod_1_r.
  - cbn [le_bytes from_bytes]. rewrite Z_of_byte_of_Z, IH.
    rewrite Nat2Z.inj_succ, Z.pow_succ_r by lia.
    rewrite Z.rem_mul_r by lia. lia.
Qed.

Lemma to_bytes_Ok n k bs :
  to_bytes n k = Ok bs <-> (0 <= n < 256 ^ Z.of_nat k /\ bs = le_bytes k n).
Proof.
  unfold to_bytes.
  destruct (Z.ltb_spec n 0); [split; [discriminate | lia]|].
  destruct (Z.leb_spec (256 ^ Z.of_nat k) n); [split; [discriminate | lia]|].
  split.
  - intros [= <-]. split; [lia | reflexivity].
  - intros [_ ->]. reflexivity.
Qed.

Lemma to_bytes_in_range n k :
  0 <= n < 256 ^ Z.of_nat k -> to_bytes n k = Ok (le_bytes k n).
Proof. intros H. now apply to_bytes_Ok. Qed.

Lemma to_bytes_Raise n k e :
  to_bytes n k = Raise e ->
  (n < 0 \/ 256 ^ Z.of_nat k <= n) /\ exists msg, e = OverflowError msg.
Proof.
  unfold to_bytes.
  destruct (Z.ltb_spec n 0); [intros [= <-]; split; [lia | eauto]|].
  destruct (Z.leb_spec (256 ^ Z.of_nat k) n); [intros [= <-]; split; [lia | eauto]|].
  discriminate.
Qed.

(** ** Properties of the header builder *)

Lemma byte_rate_eq sample_rate : sample_rate * 1 * 16 / 8 = sample_rate * 2.
Proof. replace (sample_rate * 1 * 16) with (sample_rate * 2 * 8) by lia. apply Z.div_mul. lia. Qed.

(** Only four conversions depend on the arguments; the others are constants
    that fit their fields. *)
Lemma create_wav_header_steps sample_rate data_size :
  create_wav_header sample_rate data_size =
  (riff_size <-! to_bytes (36 + data_size) 4;
   rate <-! to_bytes sample_rate 4;
   brate <-! to_bytes (sample_rate * 2) 4;
   size <-! to_bytes data_size 4;
   Ok (header_layout riff_size rate brate size)).
Proof.
  unfold create_wav_header. rewrite byte_rate_eq.
  change (to_bytes 16 4) with (Ok (le_bytes 4 16)).
  change (to_bytes 1 2) with (Ok (le_bytes 2 1)).
  change (to_bytes (1 * 16 / 8) 2) with (Ok (le_bytes 2 2)).
  change (to_bytes 16 2) with (Ok (le_bytes 2 16)).
  destruct (to_bytes (36 + data_size) 4) as [riff_size|]; [|reflexivity].
  destruct (to_bytes sample_rate 4) as [rate|]; [|reflexivity].
  destruct (to_bytes (sample_rate * 2) 4) as [brate|]; [|reflexivity].
  destruct (to_bytes data_size 4) as [size|]; [|reflexivity].
  cbn [Res.bind]. unfold header_layout. now rewrite <- !app_assoc.
Qed.

Lemma create_wav_header_in_range sample_rate data_size :
  header_args_in_range sample_rate data_size ->
  create_wav_header sample_rate data_size =
  Ok (header_layout (le_bytes 4 (36 + data_size)) (le_bytes 4 sample_rate)
        (le_bytes 4 (sample_rate * 2)) (le_bytes 4 data_size)).
Proof.
  intros (Hr & Hd & Hs). rewrite create_wav_header_steps.
  rewrite !to_bytes_in_range; [reflexivity | | | |];
    change (256 ^ Z.of_nat 4) with (2 ^ 32); lia.
Qed.

Lemma create_wav_header_Ok_inv sample_rate data_size header :
  create_wav_header sample_rate data_size = Ok header ->
  header_args_in_range sample_rate data_size.
Proof.
  rewrite create_wav_header_steps.
  destruct (to_bytes (36 + data_size) 4) as [b1|] eqn:E1; [|discriminate].
  destruct (to_bytes sample_rate 4) as [b2|] eqn:E2; [|discriminate].
  destruct (to_bytes (sample_rate * 2) 4) as [b3|] eqn:E3; [|discriminate].
  destruct (to_bytes data_size 4) as [b4|] eqn:E4; [|discriminate].
  intros _.
  apply to_bytes_Ok in E1 as [H1 _], E2 as [H2 _], E3 as [H3 _], E4 as [H4 _].
  change (256 ^ Z.of_nat 4) with (2 ^ 32) in *. unfold header_args_in_range. lia.
Qed.

Lemma create_wav_header_Raise_inv sample_rate data_size e :
  create_wav_header sample_rate data_size = Raise e ->
  exists msg, e = OverflowError msg.
Proof.
  rewrite create_wav_header_steps.
  destruct (to_bytes (36 + data_size) 4) as [b1|] eqn:E1;
    [|intros [= <-]; now apply to_bytes_Raise in E1].
  destruct (to_bytes sample_rate 4) as [b2|] eqn:E2;
    [|intros [= <-]; now apply to_bytes_Raise in E2].
  destruct (to_bytes (sample_rate * 2) 4) as [b3|] eqn:E3;
    [|intros [= <-]; now apply to_bytes_Raise in E3].
  destruct (to_bytes data_size 4) as [b4|] eqn:E4;
    [|intros [= <-]; now apply to_bytes_Raise in E4].
  discriminate.
Qed.

Lemma length_header_layout b1 b2 b3 b4 :
  length b1 = 4%nat -> length b2 = 4%nat -> length b3 = 4%nat -> length b4 = 4%nat ->
  length (header_layout b1 b2 b3 b4) = 44%nat.
Proof.
  intros H1 H2 H3 H4. unfold header_layout.
  rewrite !length_app, H1, H2, H3, H4. reflexivity.
Qed.

Lemma from_le_bytes_small k n :
  0 <= n < 256 ^ Z.of_nat k -> from_bytes (le_bytes k n) = n.
Proof. intros H. rewrite from_bytes_le_bytes. now apply Z.mod_small. Qed.

(** A header followed by a payload, read field by field. *)
Lemma framed_layout sample_rate payload :
  header_args_in_range sample_rate (len payload) ->
  framed sample_rate payload
    (header_layout (le_bytes 4 (36 + len payload)) (le_bytes 4 sample_rate)
       (le_bytes 4 (sample_rate * 2)) (le_bytes 4 (len payload)) ++ payload).
Proof.
  intros (Hr & Hd & Hs).
  assert (E32 : 256 ^ Z.of_nat 4 = 2 ^ 32) by reflexivity.
  unfold header_layout, slice, b_RIFF, b_WAVE, b_fmt, b_data.
  cbn [le_bytes app skipn firstn].
  split.
  all: try reflexivity.
  - unfold len. cbn [length]. lia.
  - change (from_bytes (le_bytes 4 (36 + len payload)) = 36 + len payload).
    apply from_le_bytes_small. lia.
  - change (from_bytes (le_bytes 4 sample_rate) = sample_rate).
    apply from_le_bytes_small. lia.
  - change (from_bytes (le_bytes 4 (sample_rate * 2)) = sample_rate * 2).
    apply from_le_bytes_small. lia.
  - change (from_bytes (le_bytes 4 (len payload)) = len payload).
    apply from_le_bytes_small. lia.
Qed.

(** ** The framer *)

Lemma frame_in_range_eq sample_rate payload :
  header_args_in_range sample_rate (len payload) ->
  frame sample_rate payload =
  Ok (header_layout (le_bytes 4 (36 + len payload)) (le_bytes 4 sample_rate)
        (le_bytes 4 (sample_rate * 2)) (le_bytes 4 (len payload)) ++ payload).
Proof.
  intros H. unfold frame. now rewrite create_wav_header_in_range.
Qed.

(** C1, as amended.  For every sample rate below [2^31] and every payload of
    length [L] with [36 + L < 2^32], the framing step returns an artifact of
    [L + 44] bytes whose data size field (offset 40) reads [L], whose RIFF
    size field (offset 4) reads [36 + L], whose byte rate field reads twice
    the sample rate and whose block alignment field reads 2, every integer
    field being read little-endian. *)
Theorem frame_correct_in_range sample_rate payload :
  0 < sample_rate < 2 ^ 31 ->
  36 + len payload < 2 ^ 32 ->
  frame_spec sample_rate payload.
Proof.
  intros Hrate Hsize.
  assert (Hrange : header_args_in_range sample_rate (len payload))
    by (unfold header_args_in_range, len in *; lia).
  eexists. split.
  - now apply frame_in_range_eq.
  - now apply framed_layout.
Qed.

Lemma frame_correct_in_range_witness :
  frame_spec 16000 [x01; x00; xff; x7f].
Proof.
  apply frame_correct_in_range.
  - change (2 ^ 31) with 2147483648. lia.
  - vm_compute. reflexivity.
Defined.

(** C1 as stated fails: the sample rate [2^31] is a positive integer, yet its
    byte rate [2^32] has no four-byte encoding and the framing step raises. *)
Lemma frame_rate_2_31_overflows :
  0 < 2147483648 /\
  frame 2147483648 [x01; x00] = Raise (OverflowError "int too big to convert") /\
  ~ frame_spec 2147483648 [x01; x00].
Proof.
  assert (E : frame 2147483648 [x01; x00]
              = Raise (OverflowError "int too big to convert"))
    by (vm_compute; reflexivity).
  split; [lia|]. split; [exact E|].
  intros (wav_data & Hframe & _). rewrite E in Hframe. discriminate.
Qed.

(** C10, as amended.  [create_wav_header] returns exactly when
    [0 <= sample_rate < 2^31], [0 <= data_size] and [36 + data_size < 2^32],
    and then its result has 44 bytes; for all other arguments it raises
    [OverflowError]. *)
Theorem create_wav_header_domain sample_rate data_size :
  match create_wav_header sample_rate data_size with
  | Ok header =>
      header_args_in_range sample_rate data_size /\ length header = 44%nat
  | Raise e =>
      ~ header_args_in_range sample_rate data_size /\
      exists msg, e = OverflowError msg
  end.
Proof.
  destruct (create_wav_header sample_rate data_size) as [header|e] eqn:E.
  - pose proof (create_wav_header_Ok_inv _ _ _ E) as Hrange. split; [exact Hrange|].
    rewrite (create_wav_header_in_range _ _ Hrange) in E. injection E as <-.
    apply length_header_layout; reflexivity.
  - split; [|now apply create_wav_header_Raise_inv in E].
    intros Hrange. rewrite (create_wav_header_in_range _ _ Hrange) in E. discriminate.
Qed.

(** C10 as stated fails: [sample_rate = 2^31] with an empty payload lies in
    the range given by the field widths, and the header builder raises on
    the byte rate. *)
Lemma create_wav_header_rate_2_31 :
  field_width_range 2147483648 0 /\
  create_wav_header 2147483648 0 = Raise (OverflowError "int too big to convert") /\
  ~ exists header, create_wav_header 2147483648 0 = Ok header.
Proof.
  assert (E : create_wav_header 2147483648 0
              = Raise (OverflowError "int too big to convert"))
    by (vm_compute; reflexivity).
  split; [unfold field_width_range; change (2 ^ 32) with 4294967296; lia|].
  split; [exact E|].
  intros (header & H). rewrite E in H. discriminate.
Qed.

(** ** Effects of the combinators *)

Create HintDb effects discriminated.

Lemma preserves_fs_ret {A} (a : A) : preserves_fs (ret a).
Proof. intros w. reflexivity. Qed.

Lemma preserves_fs_raise {A} (e : exn) : preserves_fs (@raise A e).
Proof. intros w. reflexivity. Qed.

Lemma preserves_fs_lift {A} (r : result A) : preserves_fs (lift r).
Proof. intros w. reflexivity. Qed.

Lemma preserves_fs_emit (e : event) : preserves_fs (emit e).
Proof. intros w. reflexivity. Qed.

Lemma preserves_fs_print (line : string) : preserves_fs (print line).
Proof. apply preserves_fs_emit. Qed.

Lemma preserves_fs_read_file (path : string) : preserves_fs (read_file path).
Proof. intros w. unfold read_file. now destruct (fs w !! path). Qed.

Lemma preserves_fs_bind {A B} (m : M A) (k : A -> M B) :
  preserves_fs m -> (forall a, preserves_fs (k a)) -> preserves_fs (bind m k).
Proof.
  intros Hm Hk w. unfold bind. specialize (Hm w).
  destruct (m w) as [[a|e] w1]; simpl in *; [rewrite Hk|]; congruence.
Qed.

Lemma preserves_fs_try_except {A} (m : M A) (handler : exn -> M A) :
  preserves_fs m -> (forall e, preserves_fs (handler e)) ->
  preserves_fs (try_except m handler).
Proof.
  intros Hm Hh w. unfold try_except. specialize (Hm w).
  destruct (m w) as [[a|e] w1]; simpl in *; [|rewrite Hh]; congruence.
Qed.

Lemma preserves_fs_try_finally {A} (m : M A) (cleanup : M unit) :
  preserves_fs m -> preserves_fs cleanup -> preserves_fs (try_finally m cleanup).
Proof.
  intros Hm Hc w. unfold try_finally. specialize (Hm w).
  destruct (m w) as [r w1]. specialize (Hc w1).
  destruct (cleanup w1) as [[[]|e] w2]; simpl in *; congruence.
Qed.

#[local] Hint Resolve preserves_fs_ret preserves_fs_raise preserves_fs_lift
  preserves_fs_emit preserves_fs_print preserves_fs_read_file preserves_fs_bind
  preserves_fs_try_except preserves_fs_try_finally : effects.

Lemma raises_only_ret {A} P (a : A) : raises_only P (ret a).
Proof. intros w e w' [=]. Qed.

Lemma raises_only_emit P (e : event) : raises_only P (emit e).
Proof. intros w e' w' [=]. Qed.

Lemma raises_only_print P (line : string) : raises_only P (print line).
Proof. apply raises_only_emit. Qed.

Lemma raises_only_raise {A} (P : exn -> Prop) (e : exn) :
  P e -> raises_only P (@raise A e).
Proof. intros He w e' w' [= <- _]. exact He. Qed.

Lemma raises_only_lift {A} (P : exn -> Prop) (r : result A) :
  (forall e, r = Raise e -> P e) -> raises_only P (lift r).
Proof. intros Hr w e w' [= -> _]. now apply Hr. Qed.

Lemma raises_only_bind {A B} P (m : M A) (k : A -> M B) :
  raises_only P m -> (forall a, raises_only P (k a)) -> raises_only P (bind m k).
Proof.
  intros Hm Hk w e w'. unfold bind.
  destruct (m w) as [[a|e1] w1] eqn:E.
  - apply Hk.
  - intros [= <- <-]. eapply Hm, E.
Qed.

(** A handler that does not raise makes the whole [try] safe, whatever the
    body does. *)
Lemma raises_only_try_except {A} P (m : M A) (handler : exn -> M A) :
  (forall e, raises_only P (handler e)) -> raises_only P (try_except m handler).
Proof.
  intros Hh w e w'. unfold try_except.
  destruct (m w) as [[a|e1] w1]; [intros [=] | apply Hh].
Qed.

Lemma raises_only_try_finally {A} P (m : M A) (cleanup : M unit) :
  raises_only P m -> raises_only P cleanup -> raises_only P (try_finally m cleanup).
Proof.
  intros Hm Hc w e w'. unfold try_finally.
  destruct (m w) as [r w1] eqn:Em.
  destruct (cleanup w1) as [[[]|e2] w2] eqn:Ec.
  - intros [= -> <-]. eapply Hm, Em.
  - intros [= <- <-]. eapply Hc, Ec.
Qed.

Lemma raises_only_weaken {A} (P Q : exn -> Prop) (m : M A) :
  (forall e, P e -> Q e) -> raises_only P m -> raises_only Q m.
Proof. intros HPQ Hm w e w' E. eapply HPQ, Hm, E. Qed.

(** A computation that raises nothing returns. *)
Lemma raises_nothing_returns {A} (m : M A) (w : World) :
  raises_only (fun _ => False) m -> exists a w', m w = (Ok a, w').
Proof.
  intros Hm. destruct (m w) as [[a|e] w'] eqn:E; [eauto|].
  destruct (Hm _ _ _ E).
Qed.

#[local] Hint Resolve raises_only_ret raises_only_emit raises_only_print
  raises_only_bind raises_only_try_except : effects.

Lemma returns_only_ret {A} (P : A -> Prop) (a : A) : P a -> returns_only P (ret a).
Proof. intros Ha w a' w' [= <- _]. exact Ha. Qed.

Lemma returns_only_raise {A} (P : A -> Prop) (e : exn) : returns_only P (raise e).
Proof. intros w a w' [=]. Qed.

Lemma returns_only_bind {A B} (P : B -> Prop) (m : M A) (k : A -> M B) :
  (forall a, returns_only P (k a)) -> returns_only P (bind m k).
Proof.
  intros Hk w b w'. unfold bind.
  destruct (m w) as [[a|e] w1]; [apply Hk | intros [=]].
Qed.

Lemma returns_only_try_finally {A} (P : A -> Prop) (m : M A) (cleanup : M unit) :
  returns_only P m -> returns_only P (try_finally m cleanup).
Proof.
  intros Hm w a w'. unfold try_finally.
  destruct (m w) as [r w1] eqn:Em.
  destruct (cleanup w1) as [[[]|e2] w2]; [|intros [=]].
  intros [= -> <-]. eapply Hm, Em.
Qed.

Lemma returns_only_bind_post {A B} (Q : A -> Prop) (P : B -> Prop)
    (m : M A) (k : A -> M B) :
  returns_only Q m -> (forall a, Q a -> returns_only P (k a)) ->
  returns_only P (bind m k).
Proof.
  intros Hm Hk w b w'. unfold bind.
  destruct (m w) as [[a|e] w1] eqn:Em; [|intros [=]].
  apply Hk. eapply Hm, Em.
Qed.

Lemma returns_only_try_except {A} (P : A -> Prop) (m : M A) (handler : exn -> M A) :
  returns_only P m -> (forall e, returns_only P (handler e)) ->
  returns_only P (try_except m handler).
Proof.
  intros Hm Hh w a w'. unfold try_except.
  destruct (m w) as [[a1|e] w1] eqn:Em.
  - intros [= <- <-]. eapply Hm, Em.
  - apply Hh.
Qed.

#[local] Hint Resolve returns_only_ret returns_only_raise returns_only_bind
  returns_only_try_finally : effects.

Lemma extends_trace_ret {A} (a : A) : extends_trace (ret a).
Proof. intros w. exists []. symmetry. apply app_nil_r. Qed.

Lemma extends_trace_raise {A} (e : exn) : extends_trace (@raise A e).
Proof. intros w. exists []. symmetry. apply app_nil_r. Qed.

Lemma extends_trace_lift {A} (r : result A) : extends_trace (lift r).
Proof. intros w. exists []. symmetry. apply app_nil_r. Qed.

Lemma extends_trace_emit (e : event) : extends_trace (emit e).
Proof. intros w. now exists [e]. Qed.

Lemma extends_trace_print (line : string) : extends_trace (print line).
Proof. apply extends_trace_emit. Qed.

Lemma extends_trace_read_file (path : string) : extends_trace (read_file path).
Proof.
  intros w. exists []. unfold read_file.
  destruct (fs w !! path); symmetry; apply app_nil_r.
Qed.

Lemma extends_trace_put_file path data : extends_trace (put_file path data).
Proof. intros w. exists []. symmetry. apply app_nil_r. Qed.

Lemma extends_trace_os_path_exists path : extends_trace (os_path_exists path).
Proof. intros w. exists []. symmetry. apply app_nil_r. Qed.

Lemma extends_trace_os_remove path : extends_trace (os_remove path).
Proof.
  intros w. exists [CallRemove path]. unfold os_remove.
  now destruct (fs w !! path).
Qed.

Lemma extends_trace_bind {A B} (m : M A) (k : A -> M B) :
  extends_trace m -> (forall a, extends_trace (k a)) -> extends_trace (bind m k).
Proof.
  intros Hm Hk w. unfold bind. destruct (Hm w) as [ev1 H1].
  destruct (m w) as [[a|e] w1]; cbn [snd] in *.
  - destruct (Hk a w1) as [ev2 H2]. exists (ev1 ++ ev2).
    now rewrite H2, H1, app_assoc.
  - now exists ev1.
Qed.

Lemma extends_trace_try_except {A} (m : M A) (handler : exn -> M A) :
  extends_trace m -> (forall e, extends_trace (handler e)) ->
  extends_trace (try_except m handler).
Proof.
  intros Hm Hh w. unfold try_except. destruct (Hm w) as [ev1 H1].
  destruct (m w) as [[a|e] w1]; cbn [snd] in *.
  - now exists ev1.
  - destruct (Hh e w1) as [ev2 H2]. exists (ev1 ++ ev2).
    now rewrite H2, H1, app_assoc.
Qed.

Lemma extends_trace_try_finally {A} (m : M A) (cleanup : M unit) :
  extends_trace m -> extends_trace cleanup -> extends_trace (try_finally m cleanup).
Proof.
  intros Hm Hc w. unfold try_finally. destruct (Hm w) as [ev1 H1].
  destruct (m w) as [r w1]; cbn [snd] in *.
  destruct (Hc w1) as [ev2 H2]. exists (ev1 ++ ev2).
  destruct (cleanup w1) as [[[]|e] w2]; cbn [snd] in *;
    now rewrite H2, H1, app_assoc.
Qed.

#[local] Hint Resolve extends_trace_ret extends_trace_raise extends_trace_lift
  extends_trace_emit extends_trace_print extends_trace_read_file
  extends_trace_put_file extends_trace_os_path_exists extends_trace_os_remove
  extends_trace_bind extends_trace_try_except extends_trace_try_finally : effects.

(** An effect at the head of a [try] happens before the rest of it. *)
Lemma try_except_emit {A} (ev : event) (k : unit -> M A) (handler : exn -> M A) w :
  try_except (bind (emit ev) k) handler w = try_except (k tt) handler (log ev w).
Proof. reflexivity. Qed.

(** ** Effects of the stages *)

Section Stages.

Context {float : Type} (ext : @Externals float).

Lemma preserves_fs_hume_session key path :
  preserves_fs (hume_session ext key path).
Proof. unfold hume_session. auto 12 with effects. Qed.

Lemma preserves_fs_analyze path :
  preserves_fs (analyze_audio_with_hume ext path).
Proof.
  pose proof preserves_fs_hume_session.
  unfold analyze_audio_with_hume.
  destruct (negb _); auto 8 with effects.
Qed.

Lemma preserves_fs_upload_to_gcs path bucket blob :
  preserves_fs (upload_to_gcs ext path bucket blob).
Proof.
  unfold upload_to_gcs. destruct (negb _); auto 16 with effects.
Qed.

Lemma preserves_fs_analysis_stage request path :
  preserves_fs (analysis_stage ext request path).
Proof.
  pose proof preserves_fs_analyze.
  unfold analysis_stage. destruct (analyze_emotion request); auto 8 with effects.
Qed.

Lemma preserves_fs_upload_stage request path filename :
  preserves_fs (upload_stage ext request path filename).
Proof.
  pose proof preserves_fs_upload_to_gcs.
  unfold upload_stage.
  destruct (save_to_gcs request); [|auto with effects].
  destruct (negb _); auto 10 with effects.
Qed.

(** The analyzer raises in one case only: the API key is not configured. *)
Lemma analyze_raises_only path :
  raises_only
    (fun e => e = hume_key_error /\ truthy_str (os_getenv ext "HUME_API_KEY") = false)
    (analyze_audio_with_hume ext path).
Proof.
  unfold analyze_audio_with_hume.
  destruct (truthy_str (os_getenv ext "HUME_API_KEY")) eqn:Hkey; cbn [negb].
  - auto 8 with effects.
  - apply raises_only_raise. now split.
Qed.

Lemma analysis_stage_raises_only request path :
  raises_only
    (fun e => e = hume_key_error /\ analyze_emotion request = true /\
              truthy_str (os_getenv ext "HUME_API_KEY") = false)
    (analysis_stage ext request path).
Proof.
  unfold analysis_stage. destruct (analyze_emotion request); [|auto with effects].
  apply raises_only_bind; [auto with effects|]. intros _.
  apply raises_only_bind; [|auto 6 with effects].
  eapply raises_only_weaken; [|apply analyze_raises_only].
  intros e [-> Hkey]. auto.
Qed.

(** The upload step returns whatever the uploader does. *)
Lemma upload_stage_raises_nothing request path filename :
  raises_only (fun _ => False) (upload_stage ext request path filename).
Proof.
  unfold upload_stage.
  destruct (save_to_gcs request); [|auto with effects].
  destruct (negb _); auto 8 with effects.
Qed.

(** The cleanup of the [finally] block. *)
Lemma cleanup_removes path w data :
  fs w !! path = Some data ->
  bind (os_path_exists path)
       (fun found => if found then os_remove path else ret tt) w
  = (Ok tt, removed path w).
Proof.
  intros Hfile. unfold bind, os_path_exists, os_remove, removed.
  rewrite bool_decide_eq_true_2 by eauto. now rewrite Hfile.
Qed.

(** The inner [try ... finally] on a world that holds the temporary file:
    both stages run, and every outcome passes through the removal. *)
Lemma process_temp_file_eval request path filename timestamp w data :
  fs w !! path = Some data ->
  process_temp_file ext request path filename timestamp w =
  match analysis_stage ext request path w with
  | (Raise e, w1) => (Raise e, removed path w1)
  | (Ok hume_results, w1) =>
      match upload_stage ext request path filename w1 with
      | (Raise e, w2) => (Raise e, removed path w2)
      | (Ok gcs_path, w2) =>
          (new_JSONResponse ext 200
             (build_response request filename timestamp gcs_path hume_results),
           removed path w2)
      end
  end.
Proof.
  intros Hfile. unfold process_temp_file, try_finally.
  unfold bind at 1.
  pose proof (preserves_fs_analysis_stage request path w) as Ha.
  destruct (analysis_stage ext request path w) as [[hume_results|e] w1];
    cbn [snd] in Ha.
  - unfold bind at 1.
    pose proof (preserves_fs_upload_stage request path filename w1) as Hu.
    destruct (upload_stage ext request path filename w1) as [[gcs_path|e] w2];
      cbn [snd] in Hu.
    + unfold lift at 1.
      erewrite cleanup_removes by (rewrite Hu, Ha; exact Hfile). reflexivity.
    + erewrite cleanup_removes by (rewrite Hu, Ha; exact Hfile). reflexivity.
  - erewrite cleanup_removes by (rewrite Ha; exact Hfile). reflexivity.
Qed.

End Stages.

(** ** The handler, stage by stage *)

Section Handler.

Context {float : Type} (ext : @Externals float).

Lemma extends_trace_analyze path :
  extends_trace (analyze_audio_with_hume ext path).
Proof.
  unfold analyze_audio_with_hume, hume_session.
  destruct (negb _); auto 16 with effects.
Qed.

Lemma extends_trace_upload_to_gcs path bucket blob :
  extends_trace (upload_to_gcs ext path bucket blob).
Proof. unfold upload_to_gcs. destruct (negb _); auto 16 with effects. Qed.

Lemma extends_trace_write_temp_file wav_data :
  extends_trace (write_temp_file ext wav_data).
Proof.
  unfold write_temp_file.
  apply extends_trace_bind; [auto with effects|]. intros _.
  destruct (tmp_create_error ext); [auto with effects|].
  apply extends_trace_bind; [auto with effects|]. intros _.
  apply extends_trace_bind; [auto with effects|]. intros _.
  destruct (tmp_write_error ext); auto 6 with effects.
Qed.

Lemma extends_trace_process_temp_file request path filename timestamp :
  extends_trace (process_temp_file ext request path filename timestamp).
Proof.
  pose proof extends_trace_analyze. pose proof extends_trace_upload_to_gcs.
  unfold process_temp_file, analysis_stage, upload_stage.
  apply extends_trace_try_finally.
  - apply extends_trace_bind.
    + destruct (analyze_emotion request); auto 10 with effects.
    + intros hume_results. apply extends_trace_bind; [|auto with effects].
      destruct (save_to_gcs request); [|auto with effects].
      destruct (negb _); auto 10 with effects.
  - apply extends_trace_bind; [auto with effects|].
    intros []; auto with effects.
Qed.

(** With a payload, a header and a temporary file, the outer [try] is the
    inner one, run on the world of the fan-out. *)
Lemma handle_try_at_fanout request wav_header w :
  reaches_fanout ext request wav_header ->
  handle_audio_stream_try ext request w =
  process_temp_file ext request (tmp_name ext) (artifact_name ext request)
    (utcnow_strftime ext) (fanout_world ext request wav_header w).
Proof.
  intros [Hbody Hheader Hcreate Hwrite].
  unfold handle_audio_stream_try.
  destruct (body request) as [|b rest] eqn:Eb; [congruence|].
  unfold bind at 1, emit at 1.
  unfold bind at 1, lift at 1. rewrite Hheader.
  unfold bind at 1, write_temp_file.
  unfold bind at 1, emit at 1. rewrite Hcreate.
  unfold bind at 1, put_file at 1.
  unfold bind at 1, emit at 1. rewrite Hwrite.
  unfold bind at 1, put_file at 1, ret at 1.
  cbn [fs trace]. unfold fanout_world, artifact_name. rewrite Eb.
  now rewrite <- !app_assoc.
Qed.

Lemma fanout_world_file request wav_header w :
  fs (fanout_world ext request wav_header w) !! tmp_name ext
  = Some (wav_header ++ body request).
Proof. unfold fanout_world. cbn [fs]. apply lookup_insert_eq. Qed.

Lemma fanout_world_removed request wav_header w w1 :
  fs w1 = fs (fanout_world ext request wav_header w) ->
  fs (removed (tmp_name ext) w1) = delete (tmp_name ext) (fs w).
Proof.
  intros Hfs. unfold removed. cbn [fs]. rewrite Hfs.
  unfold fanout_world. cbn [fs]. now rewrite !delete_insert_eq.
Qed.

(** The cleanup never raises: it removes a file that it found. *)
Lemma cleanup_raises_nothing path :
  raises_only (fun _ => False)
    (bind (os_path_exists path)
          (fun found => if found then os_remove path else ret tt)).
Proof.
  intros w e w'. unfold bind, os_path_exists, os_remove.
  destruct (bool_decide_reflect (is_Some (fs w !! path))) as [[data Hfile]|_].
  - rewrite Hfile. intros [=].
  - intros [=].
Qed.

Lemma new_JSONResponse_Ok_inv status (response_data : @dict float) response :
  new_JSONResponse ext status response_data = Ok response ->
  response = {| status_code := status; content := response_data |} /\
  first_nonfinite ext (PyDict response_data) = None.
Proof.
  unfold new_JSONResponse.
  destruct (first_nonfinite ext (PyDict response_data)); [discriminate|].
  intros [= <-]. now split.
Qed.

Lemma new_JSONResponse_Raise_inv status (response_data : @dict float) e :
  new_JSONResponse ext status response_data = Raise e ->
  exists x, first_nonfinite ext (PyDict response_data) = Some x /\
            e = ValueError (json_float_error ext x).
Proof.
  unfold new_JSONResponse.
  destruct (first_nonfinite ext (PyDict response_data)) as [x|]; [|discriminate].
  intros [= <-]. eauto.
Qed.

(** With a payload, whatever escapes the outer [try] is no [HTTPException]. *)
Lemma try_raises_no_http request :
  body request <> [] ->
  raises_only (fun e => is_HTTPException e = false)
    (handle_audio_stream_try ext request).
Proof.
  intros Hbody. unfold handle_audio_stream_try.
  destruct (body request) as [|b rest]; [congruence|].
  apply raises_only_bind; [auto with effects|]. intros _.
  apply raises_only_bind.
  { apply raises_only_lift. intros e He.
    apply create_wav_header_Raise_inv in He as [msg ->]. reflexivity. }
  intros wav_header. apply raises_only_bind.
  { unfold write_temp_file.
    apply raises_only_bind; [auto with effects|]. intros _.
    destruct (tmp_create_error ext); [now apply raises_only_raise|].
    apply raises_only_bind; [intros ? ? ? [=]|]. intros _.
    apply raises_only_bind; [auto with effects|]. intros _.
    destruct (tmp_write_error ext); [now apply raises_only_raise|].
    apply raises_only_bind; [intros ? ? ? [=]|]. auto with effects. }
  intros path. unfold process_temp_file.
  apply raises_only_try_finally.
  - apply raises_only_bind.
    + eapply raises_only_weaken; [|apply analysis_stage_raises_only].
      now intros e [-> _].
    + intros hume_results. apply raises_only_bind.
      * eapply raises_only_weaken; [|apply upload_stage_raises_nothing].
        intros e [].
      * intros gcs_path. apply raises_only_lift. intros e He.
        apply new_JSONResponse_Raise_inv in He as (x & _ & ->). reflexivity.
  - eapply raises_only_weaken; [|apply cleanup_raises_nothing]. intros e [].
Qed.

(** The floats of a response are those of the analysis: the other entries
    are strings and integers. *)
Lemma first_nonfinite_build_response request filename timestamp gcs_path
    (hume_results : option (@dict float)) :
  first_nonfinite ext
    (PyDict (build_response request filename timestamp gcs_path hume_results))
  = match hume_results with
    | Some d => first_nonfinite ext (PyDict d)
    | None => None
    end.
Proof.
  unfold build_response.
  destruct (truthy_str gcs_path), hume_results as [[|entry d]|];
    try reflexivity.
  all: change (truthy_dict (Some (entry :: d))) with true; cbv iota;
    change (default [] (Some (entry :: d))) with (entry :: d);
    generalize (@PyDict float (entry :: d)); intros v; cbn;
    destruct (first_nonfinite ext v); reflexivity.
Qed.

(** Whatever the outer [try] returns is a 200. *)
Lemma try_returns_200 request :
  returns_only (fun response => status_code response = 200)
    (handle_audio_stream_try ext request).
Proof.
  unfold handle_audio_stream_try, process_temp_file.
  destruct (body request); [auto with effects|].
  do 3 (apply returns_only_bind; intros ?).
  apply returns_only_try_finally.
  do 2 (apply returns_only_bind; intros ?).
  intros w response w' [= Hnew _].
  now apply new_JSONResponse_Ok_inv in Hnew as [-> _].
Qed.

(** The two ways out of the fan-out. *)
Lemma handle_fanout_returns request wav_header w hume_results w1 gcs_path w2 :
  reaches_fanout ext request wav_header ->
  analysis_stage ext request (tmp_name ext) (fanout_world ext request wav_header w)
    = (Ok hume_results, w1) ->
  upload_stage ext request (tmp_name ext) (artifact_name ext request) w1
    = (Ok gcs_path, w2) ->
  finite_floats ext hume_results ->
  handle_audio_stream ext request w =
  (Ok {| status_code := 200;
         content := build_response request (artifact_name ext request)
                      (utcnow_strftime ext) gcs_path hume_results |},
   removed (tmp_name ext) w2).
Proof.
  intros Hreach Ha Hu Hfinite. unfold handle_audio_stream, try_except.
  rewrite (handle_try_at_fanout _ _ _ Hreach).
  erewrite process_temp_file_eval by apply fanout_world_file.
  rewrite Ha, Hu. unfold new_JSONResponse.
  rewrite first_nonfinite_build_response.
  destruct hume_results as [d|]; [|reflexivity].
  unfold finite_floats in Hfinite. now rewrite Hfinite.
Qed.

(** A float that [json] refuses turns the response into a 500, after both
    stages ran and the file was removed. *)
Lemma handle_fanout_unrenderable request wav_header w d w1 gcs_path w2 x :
  reaches_fanout ext request wav_header ->
  analysis_stage ext request (tmp_name ext) (fanout_world ext request wav_header w)
    = (Ok (Some d), w1) ->
  upload_stage ext request (tmp_name ext) (artifact_name ext request) w1
    = (Ok gcs_path, w2) ->
  first_nonfinite ext (PyDict d) = Some x ->
  handle_audio_stream ext request w =
  (Raise (HTTPException 500 ("Internal server error: " +:+ json_float_error ext x)),
   log (Print ("Error processing audio: " +:+ json_float_error ext x))
       (removed (tmp_name ext) w2)).
Proof.
  intros Hreach Ha Hu Hx. unfold handle_audio_stream, try_except.
  rewrite (handle_try_at_fanout _ _ _ Hreach).
  erewrite process_temp_file_eval by apply fanout_world_file.
  rewrite Ha, Hu. unfold new_JSONResponse.
  rewrite first_nonfinite_build_response, Hx. reflexivity.
Qed.

Lemma handle_fanout_raises request wav_header w e w1 :
  reaches_fanout ext request wav_header ->
  analysis_stage ext request (tmp_name ext) (fanout_world ext request wav_header w)
    = (Raise e, w1) ->
  handle_audio_stream ext request w =
  (Raise (HTTPException 500 ("Internal server error: " +:+ exn_str e)),
   log (Print ("Error processing audio: " +:+ exn_str e))
       (removed (tmp_name ext) w1)).
Proof.
  intros Hreach Ha. unfold handle_audio_stream, try_except.
  rewrite (handle_try_at_fanout _ _ _ Hreach).
  erewrite process_temp_file_eval by apply fanout_world_file.
  rewrite Ha.
  apply analysis_stage_raises_only in Ha as [-> _]. reflexivity.
Qed.

End Handler.

(** ** The scratch file *)

(** X18.  Once the temporary file has been created and written, the handler
    removes it on every way out: the file is not in storage when the handler
    returns, whatever the analysis, the upload and the rendering of the
    response did, and the removal is on the trace. *)
Theorem temp_file_removed {float : Type} (ext : @Externals float)
    (request : Request) (wav_header : list byte) (w : World) :
  reaches_fanout ext request wav_header ->
  fs (snd (handle_audio_stream ext request w)) !! tmp_name ext = None /\
  fs (snd (handle_audio_stream ext request w)) = delete (tmp_name ext) (fs w) /\
  In (CallRemove (tmp_name ext)) (trace (snd (handle_audio_stream ext request w))).
Proof.
  intros Hreach.
  set (w0 := fanout_world ext request wav_header w).
  pose proof (preserves_fs_analysis_stage ext request (tmp_name ext) w0) as Ha.
  destruct (analysis_stage ext request (tmp_name ext) w0)
    as [[hume_results|e] w1] eqn:Ea; cbn [snd] in Ha.
  - pose proof (preserves_fs_upload_stage ext request (tmp_name ext)
                  (artifact_name ext request) w1) as Hu.
    destruct (raises_nothing_returns
                (upload_stage ext request (tmp_name ext) (artifact_name ext request))
                w1 (upload_stage_raises_nothing ext request _ _))
      as (gcs_path & w2 & Eu).
    rewrite Eu in Hu. cbn [snd] in Hu.
    assert (Hfs : fs (removed (tmp_name ext) w2) = delete (tmp_name ext) (fs w))
      by (eapply fanout_world_removed; rewrite Hu; exact Ha).
    assert (Hout : snd (handle_audio_stream ext request w)
                   = removed (tmp_name ext) w2 \/
                   exists line, snd (handle_audio_stream ext request w)
                                = log (Print line) (removed (tmp_name ext) w2)).
    { destruct hume_results as [d|].
      - destruct (first_nonfinite ext (PyDict d)) as [x|] eqn:Ex.
        + right. eexists.
          now rewrite (handle_fanout_unrenderable ext request wav_header w
                         _ _ _ _ _ Hreach Ea Eu Ex).
        + left. now rewrite (handle_fanout_returns ext request wav_header w
                               _ _ _ _ Hreach Ea Eu Ex).
      - left. now rewrite (handle_fanout_returns ext request wav_header w
                             _ _ _ _ Hreach Ea Eu I). }
    destruct Hout as [-> | [line ->]]; unfold log; cbn [fs trace].
    + split; [rewrite Hfs; apply lookup_delete_eq|]. split; [exact Hfs|].
      unfold removed. cbn [trace]. apply in_or_app. right. now left.
    + split; [rewrite Hfs; apply lookup_delete_eq|]. split; [exact Hfs|].
      unfold removed. cbn [trace]. apply in_or_app. left.
      apply in_or_app. right. now left.
  - rewrite (handle_fanout_raises ext request wav_header w _ _ Hreach Ea).
    cbn [snd]. unfold log. cbn [fs trace].
    assert (Hfs : fs (removed (tmp_name ext) w1) = delete (tmp_name ext) (fs w))
      by (eapply fanout_world_removed; exact Ha).
    split; [rewrite Hfs; apply lookup_delete_eq|]. split; [exact Hfs|].
    unfold removed. cbn [trace]. apply in_or_app. left.
    apply in_or_app. right. now left.
Qed.

Lemma temp_file_removed_witness :
  fs (snd (handle_audio_stream ext_upload_denied request_user1 world0))
    !! tmp_name ext_upload_denied = None /\
  fs (snd (handle_audio_stream ext_upload_denied request_user1 world0))
    = delete (tmp_name ext_upload_denied) (fs world0) /\
  In (CallRemove (tmp_name ext_upload_denied))
     (trace (snd (handle_audio_stream ext_upload_denied request_user1 world0))).
Proof.
  apply (temp_file_removed ext_upload_denied request_user1 header_user1 world0).
  split; [discriminate | vm_compute; reflexivity | reflexivity | reflexivity].
Defined.

(** C2.  The handler at the failing input: a request with a payload on a
    full disk.  The temporary file is created, its write raises, the handler
    answers 500, and when it has returned the file is still in storage: the
    [with] block stands before the [try] whose [finally] removes the file,
    so no removal is made on this way out. *)
Lemma temp_file_left_after_failed_write :
  body request_user1 <> [] /\
  tmp_write_error ext_disk_full = Some "[Errno 28] No space left on device" /\
  http_status (fst (handle_audio_stream ext_disk_full request_user1 world0))
    = Some 500 /\
  In (CallNamedTemporaryFile (tmp_name ext_disk_full))
     (trace (snd (handle_audio_stream ext_disk_full request_user1 world0))) /\
  ~ In (CallRemove (tmp_name ext_disk_full))
       (trace (snd (handle_audio_stream ext_disk_full request_user1 world0))) /\
  is_Some (fs (snd (handle_audio_stream ext_disk_full request_user1 world0))
             !! tmp_name ext_disk_full).
Proof.
  split; [discriminate|]. split; [reflexivity|]. split; [vm_compute; reflexivity|].
  split; [vm_compute; tauto|]. split.
  - vm_compute. intros [H | [H | [H | [H | []]]]]; discriminate.
  - vm_compute. eauto.
Qed.

(** ** Validation *)

(** C7.  A request with an empty payload is answered with a 400 and leaves
    the world as it was: nothing is on the trace (no header built, no
    temporary file, no call to a collaborator) and no file is touched.  A
    request with a payload always gets to the header builder and is never
    answered with a 400. *)
Theorem empty_payload_rejected {float : Type} (ext : @Externals float)
    (request : Request) (w : World) :
  match body request with
  | [] =>
      handle_audio_stream ext request w
      = (Raise (HTTPException 400 "No audio data received"), w)
  | _ :: _ =>
      http_status (fst (handle_audio_stream ext request w)) <> Some 400 /\
      exists events,
        trace (snd (handle_audio_stream ext request w)) =
        trace w ++
        CallCreateWavHeader (sample_rate request) (len (body request)) :: events
  end.
Proof.
  destruct (body request) as [|b rest] eqn:Eb.
  - unfold handle_audio_stream, try_except, handle_audio_stream_try.
    now rewrite Eb.
  - assert (Hbody : body request <> []) by congruence.
    split.
    + unfold handle_audio_stream, try_except.
      destruct (handle_audio_stream_try ext request w) as [[response|e] w1] eqn:E.
      * apply try_returns_200 in E. cbn. rewrite E. discriminate.
      * apply (try_raises_no_http ext request Hbody) in E.
        destruct e; try discriminate; cbn; discriminate.
    + unfold handle_audio_stream, handle_audio_stream_try. rewrite Eb.
      rewrite try_except_emit.
      match goal with
      | |- context [try_except ?m ?h (log ?ev w)] =>
          assert (Hrest : extends_trace (try_except m h)); [|set (w0 := log ev w)]
      end.
      { pose proof (extends_trace_write_temp_file ext).
        pose proof (extends_trace_process_temp_file ext).
        apply extends_trace_try_except; [auto 8 with effects|].
        intros []; auto 6 with effects. }
      destruct (Hrest w0) as [events Hev]. exists events.
      rewrite Hev. subst w0. unfold log. cbn [trace].
      now rewrite <- app_assoc.
Qed.

(** The two cases on the scenarios: an empty body changes nothing, a body
    with the archive as its only consumer is framed, uploaded and removed. *)
Example empty_request_unchanged_world :
  handle_audio_stream ext_all_fine request_empty world0
  = (Raise (HTTPException 400 "No audio data received"), world0).
Proof. reflexivity. Qed.

Example archive_only_request_trace :
  trace (snd (handle_audio_stream ext_all_fine request_archive_only world0))
  = [CallCreateWavHeader 16000 4;
     CallNamedTemporaryFile "/tmp/tmpk3v9x2.wav";
     CallWrite "/tmp/tmpk3v9x2.wav";
     CallDecodeCredentials;
     CallStorageClient;
     CallUpload "/tmp/tmpk3v9x2.wav" "omi-audio" "user1_20240101_120000_000001.wav";
     Print "Audio file uploaded successfully: gs://omi-audio/user1_20240101_120000_000001.wav";
     CallRemove "/tmp/tmpk3v9x2.wav"].
Proof. vm_compute. reflexivity. Qed.

(** ** Unexpected faults *)

(** C4, as amended.  When the outer [try] is left by an exception that is no
    [HTTPException], the caller gets a 500 whose detail is
    ["Internal server error: "] followed by the text of that exception; the
    same text is printed. *)
Theorem internal_fault_is_500 {float : Type} (ext : @Externals float)
    (request : Request) (w w1 : World) (e : exn) :
  handle_audio_stream_try ext request w = (Raise e, w1) ->
  is_HTTPException e = false ->
  handle_audio_stream ext request w =
  (Raise (HTTPException 500 ("Internal server error: " +:+ exn_str e)),
   log (Print ("Error processing audio: " +:+ exn_str e)) w1).
Proof.
  intros Htry Hkind. unfold handle_audio_stream, try_except. rewrite Htry.
  destruct e; [discriminate | | | |]; reflexivity.
Qed.

Lemma internal_fault_is_500_witness :
  handle_audio_stream ext_no_hume_key request_user1 world0 =
  (Raise (HTTPException 500
            ("Internal server error: " +:+ exn_str hume_key_error)),
   log (Print ("Error processing audio: " +:+ exn_str hume_key_error))
       {| fs := ∅;
          trace := [CallCreateWavHeader 16000 4;
                    CallNamedTemporaryFile "/tmp/tmpk3v9x2.wav";
                    CallWrite "/tmp/tmpk3v9x2.wav";
                    Print "Analyzing audio with Hume AI for user user1";
                    CallRemove "/tmp/tmpk3v9x2.wav"] |}).
Proof.
  apply (internal_fault_is_500 ext_no_hume_key request_user1 world0).
  - vm_compute. reflexivity.
  - reflexivity.
Defined.

(** C4 as stated fails: when the disk is full, the text of the [OSError] of
    the write is in the detail of the 500 the caller gets. *)
Lemma internal_fault_detail_leaks :
  fst (handle_audio_stream_try ext_disk_full request_user1 world0)
    = Raise (OSError "[Errno 28] No space left on device") /\
  fst (handle_audio_stream ext_disk_full request_user1 world0)
    = Raise (HTTPException 500
               "Internal server error: [Errno 28] No space left on device") /\
  leaks_detail (OSError "[Errno 28] No space left on device")
    "Internal server error: [Errno 28] No space left on device" = true.
Proof. repeat split; vm_compute; reflexivity. Qed.

(** ** The analyzer and the uploader, case by case *)

Section Cases.

Context {float : Type} (ext : @Externals float).

Lemma truthy_str_Some (s : string) : s <> "" -> truthy_str (Some s) = true.
Proof.
  intros Hs. cbn. destruct (String.eqb_spec s ""); [contradiction | reflexivity].
Qed.

Lemma format_results_app (done : list pyval) (predictions : list hume_prediction) :
  fold_left (fun formatted_results prediction =>
               formatted_results ++ [format_prediction prediction])
            predictions done
  = done ++ map (@format_prediction float) predictions.
Proof.
  revert done. induction predictions as [|p rest IH]; intros done; cbn.
  - now rewrite app_nil_r.
  - rewrite IH, <- app_assoc. reflexivity.
Qed.

(** The loop keeps the windows in the order of the reply. *)
Lemma format_results_map (predictions : list (@hume_prediction float)) :
  format_results predictions = map format_prediction predictions.
Proof. unfold format_results. now rewrite format_results_app. Qed.

Lemma read_emotions_format (prediction : @hume_prediction float) :
  read_emotions (format_prediction prediction)
  = Some (map Some (emotion_pairs prediction)).
Proof.
  unfold read_emotions, format_prediction, emotion_pairs. cbn.
  f_equal. rewrite !map_map. reflexivity.
Qed.

(** A session in which every call to the SDK returns. *)
Lemma hume_session_returns key path w data result :
  hume_connect ext key = Ok tt ->
  fs w !! path = Some data ->
  hume_send_file ext key data = Ok result ->
  hume_close ext key = Ok tt ->
  hume_session ext key path w
  = (Ok (extract_prosody result),
     log (CallHumeSendFile path) (log CallHumeConnect w)).
Proof.
  intros Hconnect Hfile Hsend Hclose.
  unfold hume_session, bind, try_finally, emit, lift, read_file, ret.
  cbn [fs trace]. now rewrite Hconnect, Hfile, Hsend, Hclose.
Qed.

Lemma analyze_session_returns key path w d w1 :
  os_getenv ext "HUME_API_KEY" = Some key -> key <> "" ->
  hume_session ext key path w = (Ok d, w1) ->
  analyze_audio_with_hume ext path w = (Ok d, w1).
Proof.
  intros Hkey Hne Hsession. unfold analyze_audio_with_hume.
  rewrite Hkey, truthy_str_Some by assumption. cbn [negb default from_option id].
  unfold try_except. now rewrite Hsession.
Qed.

(** Whatever is raised inside the [try] of the analyzer comes back as a
    dict. *)
Lemma analyze_session_raises key path w e w1 :
  os_getenv ext "HUME_API_KEY" = Some key -> key <> "" ->
  hume_session ext key path w = (Raise e, w1) ->
  analyze_audio_with_hume ext path w
  = (Ok (analysis_failed e),
     log (Print ("Error analyzing audio with Hume: " +:+ exn_str e)) w1).
Proof.
  intros Hkey Hne Hsession. unfold analyze_audio_with_hume.
  rewrite Hkey, truthy_str_Some by assumption. cbn [negb default from_option id].
  unfold try_except. now rewrite Hsession.
Qed.

Lemma analysis_stage_enabled request path w d w1 :
  analyze_emotion request = true ->
  analyze_audio_with_hume ext path
    (log (Print ("Analyzing audio with Hume AI for user " +:+ uid request)) w)
    = (Ok d, w1) ->
  analysis_stage ext request path w
  = (Ok (Some d),
     log (Print ("Hume analysis complete: " +:+ pretty (total_predictions d)
                 +:+ " predictions")) w1).
Proof.
  intros Hflag Ha. unfold analysis_stage. rewrite Hflag.
  unfold bind at 1, print at 1, emit at 1. fold (log (Print
    ("Analyzing audio with Hume AI for user " +:+ uid request)) w).
  unfold bind at 1. rewrite Ha. reflexivity.
Qed.

Lemma analysis_stage_disabled request path w :
  analyze_emotion request = false ->
  analysis_stage ext request path w = (Ok None, w).
Proof. intros Hflag. unfold analysis_stage. now rewrite Hflag. Qed.






Lemma upload_to_gcs_no_credentials path bucket blob w :
  truthy_str (os_getenv ext "GOOGLE_APPLICATION_CREDENTIALS_JSON") = false ->
  upload_to_gcs ext path bucket blob w
  = (Raise (ValueError
       "GOOGLE_APPLICATION_CREDENTIALS_JSON environment variable not set"), w).
Proof. intros Hcred. unfold upload_to_gcs. now rewrite Hcred. Qed.

Lemma build_response_gcs_path request filename timestamp gcs_path
    (hume_results : option (@dict float)) :
  dict_get (build_response request filename timestamp gcs_path hume_results)
    "gcs_path"
  = if truthy_str gcs_path then Some (@PyStr float (default "" gcs_path)) else None.
Proof.
  unfold build_response.
  destruct (truthy_str gcs_path), (truthy_dict hume_results); reflexivity.
Qed.

Lemma build_response_hume_analysis request filename timestamp gcs_path
    (hume_results : option (@dict float)) :
  dict_get (build_response request filename timestamp gcs_path hume_results)
    "hume_analysis"
  = if truthy_dict hume_results
    then Some (PyDict (default [] hume_results)) else None.
Proof.
  unfold build_response.
  destruct (truthy_str gcs_path), (truthy_dict hume_results); reflexivity.
Qed.

End Cases.

(** ** Configuration errors *)

Lemma truthy_str_true_inv (s : option string) :
  truthy_str s = true -> exists v, s = Some v /\ v <> "".
Proof.
  destruct s as [v|]; [|discriminate]. cbn.
  destruct (String.eqb_spec v ""); [discriminate|]. eauto.
Qed.




(** ** Failures of the upload *)




(** ** Failures of the analysis *)

Lemma unavailable_analysis_failed {float : Type} (e : exn) :
  unavailable (exn_str e) (@analysis_failed float e).
Proof. repeat split. Qed.

(** The failure dict holds no float. *)
Lemma finite_floats_analysis_failed {float : Type} (ext : @Externals float)
    (e : exn) :
  finite_floats ext (Some (analysis_failed e)).
Proof. reflexivity. Qed.

(** C6.  Whatever is raised while the analyzer connects, sends the file or
    closes the socket is caught in the analyzer and comes back as the
    unavailable outcome with the text of the exception; the request is then
    answered with a 200 that carries this outcome. *)
Theorem analysis_failure_contained {float : Type} (ext : @Externals float)
    (request : Request) (wav_header : list byte) (w w1 : World)
    (key : string) (e : exn) :
  reaches_fanout ext request wav_header ->
  analyze_emotion request = true ->
  os_getenv ext "HUME_API_KEY" = Some key -> key <> "" ->
  hume_session ext key (tmp_name ext) (analysis_world ext request wav_header w)
    = (Raise e, w1) ->
  fst (analyze_audio_with_hume ext (tmp_name ext)
         (analysis_world ext request wav_header w))
    = Ok (analysis_failed e) /\
  unavailable (exn_str e) (@analysis_failed float e) /\
  exists response,
    fst (handle_audio_stream ext request w) = Ok response /\
    status_code response = 200 /\
    dict_get (content response) "hume_analysis"
      = Some (PyDict (analysis_failed e)).
Proof.
  intros Hreach Hflag Hkey Hne Hsession.
  pose proof (analyze_session_raises ext _ _ _ _ _ Hkey Hne Hsession) as Ha.
  split; [now rewrite Ha|]. split; [apply unavailable_analysis_failed|].
  pose proof (analysis_stage_enabled ext request _ _ _ _ Hflag Ha) as Hstage.
  destruct (raises_nothing_returns
              (upload_stage ext request (tmp_name ext) (artifact_name ext request))
              (log (Print ("Hume analysis complete: "
                           +:+ pretty (total_predictions (@analysis_failed float e))
                           +:+ " predictions"))
                   (log (Print ("Error analyzing audio with Hume: " +:+ exn_str e))
                        w1))
              (upload_stage_raises_nothing ext request _ _))
    as (gcs_path & w2 & Hu).
  rewrite (handle_fanout_returns ext request wav_header w _ _ _ _ Hreach Hstage Hu
             (finite_floats_analysis_failed ext e)).
  eexists. split; [reflexivity|]. cbn [status_code content].
  split; [reflexivity|]. now rewrite build_response_hume_analysis.
Qed.

Lemma analysis_failure_contained_witness :
  fst (analyze_audio_with_hume ext_hume_down (tmp_name ext_hume_down)
         (analysis_world ext_hume_down request_user1 header_user1 world0))
    = Ok (analysis_failed (Exception "ConnectionError" "connection refused")) /\
  unavailable (exn_str (Exception "ConnectionError" "connection refused"))
    (@analysis_failed Q (Exception "ConnectionError" "connection refused")) /\
  exists response,
    fst (handle_audio_stream ext_hume_down request_user1 world0) = Ok response /\
    status_code response = 200 /\
    dict_get (content response) "hume_analysis"
      = Some (PyDict (analysis_failed
                        (Exception "ConnectionError" "connection refused"))).
Proof.
  eapply (analysis_failure_contained ext_hume_down request_user1 header_user1
            world0 _ "hume-key").
  - split; [discriminate | vm_compute; reflexivity | reflexivity | reflexivity].
  - reflexivity.
  - vm_compute. reflexivity.
  - discriminate.
  - vm_compute. reflexivity.
Defined.

(** ** The reply of the analysis *)

(** C8.  When the session succeeds and the reply has a prosody section, the
    analyzer returns one formatted window per remote window, in the order of
    the reply, and each formatted window holds the (name, score) pairs of its
    remote window, all of them and in their order. *)
Theorem predictions_preserved {float : Type} (ext : @Externals float)
    (path key : string) (w : World) (data : list byte)
    (prosody : @hume_prosody float) :
  os_getenv ext "HUME_API_KEY" = Some key -> key <> "" ->
  hume_connect ext key = Ok tt ->
  fs w !! path = Some data ->
  hume_send_file ext key data
    = Ok (Some {| result_prosody := Some (Some prosody) |}) ->
  hume_close ext key = Ok tt ->
  exists formatted,
    fst (analyze_audio_with_hume ext path w)
      = Ok [("success", PyBool true);
            ("predictions", PyList formatted);
            ("total_predictions", PyInt (len formatted))] /\
    formatted = map format_prediction (prosody_predictions prosody) /\
    length formatted = length (prosody_predictions prosody) /\
    map read_emotions formatted
      = map (fun prediction => Some (map Some (emotion_pairs prediction)))
            (prosody_predictions prosody) /\
    (forall (i : nat) prediction,
       prosody_predictions prosody !! i = Some prediction ->
       formatted !! i = Some (format_prediction prediction)).
Proof.
  intros Hkey Hne Hconnect Hfile Hsend Hclose.
  pose proof (hume_session_returns ext key path w data _
                Hconnect Hfile Hsend Hclose) as Hsession.
  pose proof (analyze_session_returns ext _ _ _ _ _ Hkey Hne Hsession) as Ha.
  exists (map format_prediction (prosody_predictions prosody)).
  split; [|split; [reflexivity|split; [apply length_map|split]]].
  - rewrite Ha. cbn [fst extract_prosody]. now rewrite format_results_map.
  - rewrite map_map. apply map_ext. intros p. apply read_emotions_format.
  - intros i p Hi. rewrite list_lookup_fmap, Hi. reflexivity.
Qed.

Lemma predictions_preserved_witness :
  exists formatted,
    fst (analyze_audio_with_hume ext_all_fine (tmp_name ext_all_fine)
           (fanout_world ext_all_fine request_user1 header_user1 world0))
      = Ok [("success", PyBool true);
            ("predictions", PyList formatted);
            ("total_predictions", PyInt (len formatted))] /\
    formatted = map format_prediction (prosody_predictions prosody_two_windows) /\
    length formatted = length (prosody_predictions prosody_two_windows) /\
    map read_emotions formatted
      = map (fun prediction => Some (map Some (emotion_pairs prediction)))
            (prosody_predictions prosody_two_windows) /\
    (forall (i : nat) prediction,
       prosody_predictions prosody_two_windows !! i = Some prediction ->
       formatted !! i = Some (format_prediction prediction)).
Proof.
  apply (predictions_preserved ext_all_fine (tmp_name ext_all_fine) "hume-key"
           (fanout_world ext_all_fine request_user1 header_user1 world0)
           (header_user1 ++ body request_user1) prosody_two_windows).
  - vm_compute. reflexivity.
  - discriminate.
  - reflexivity.
  - apply fanout_world_file.
  - reflexivity.
  - reflexivity.
Defined.

(** The two windows of the scenario, read back from the output. *)
Example two_windows_read_back :
  map read_emotions
    (map format_prediction (prosody_predictions prosody_two_windows))
  = [ Some [Some ("Joy", Qmake 81 100); Some ("Calmness", Qmake 12 100)];
      Some [Some ("Anger", Qmake 3 100); Some ("Joy", Qmake 40 100)] ].
Proof. reflexivity. Qed.

(** C9, as amended.  When the session succeeds and the reply is missing, has
    no [prosody] attribute or has a [prosody] that is [None], the analyzer
    returns, without raising and without printing an error, the unavailable
    outcome with the reason ["No prosody predictions returned"]. *)
Theorem no_prosody_is_unavailable {float : Type} (ext : @Externals float)
    (path key : string) (w : World) (data : list byte)
    (result : option (@hume_result float)) :
  os_getenv ext "HUME_API_KEY" = Some key -> key <> "" ->
  hume_connect ext key = Ok tt ->
  fs w !! path = Some data ->
  hume_send_file ext key data = Ok result ->
  hume_close ext key = Ok tt ->
  lacks_prosody result = true ->
  analyze_audio_with_hume ext path w
    = (Ok no_predictions, log (CallHumeSendFile path) (log CallHumeConnect w)) /\
  unavailable "No prosody predictions returned" (@no_predictions float).
Proof.
  intros Hkey Hne Hconnect Hfile Hsend Hclose Hlacks.
  pose proof (hume_session_returns ext key path w data _
                Hconnect Hfile Hsend Hclose) as Hsession.
  pose proof (analyze_session_returns ext _ _ _ _ _ Hkey Hne Hsession) as Ha.
  split; [|repeat split].
  rewrite Ha. f_equal. f_equal.
  destruct result as [[[[prosody|]|]]|]; [discriminate| | |]; reflexivity.
Qed.

Lemma no_prosody_is_unavailable_witness :
  analyze_audio_with_hume ext_without_prosody (tmp_name ext_without_prosody)
    (fanout_world ext_without_prosody request_user1 header_user1 world0)
    = (Ok no_predictions,
       log (CallHumeSendFile (tmp_name ext_without_prosody))
         (log CallHumeConnect
            (fanout_world ext_without_prosody request_user1 header_user1 world0))) /\
  unavailable "No prosody predictions returned" (@no_predictions Q).
Proof.
  apply (no_prosody_is_unavailable ext_without_prosody
           (tmp_name ext_without_prosody) "hume-key"
           (fanout_world ext_without_prosody request_user1 header_user1 world0)
           (header_user1 ++ body request_user1) reply_without_prosody).
  - vm_compute. reflexivity.
  - discriminate.
  - reflexivity.
  - apply fanout_world_file.
  - reflexivity.
  - reflexivity.
  - reflexivity.
Defined.

(** C9 as stated fails: a reply with a prosody section and an empty
    sequence of predictions comes back as a success with zero predictions,
    not as the unavailable outcome. *)
Lemma empty_predictions_reported_as_success :
  reply_empty_predictions
    = Some {| result_prosody := Some (Some {| prosody_predictions := [] |}) |} /\
  fst (analyze_audio_with_hume ext_empty_predictions (tmp_name ext_empty_predictions)
         (fanout_world ext_empty_predictions request_user1 header_user1 world0))
    = Ok [("success", PyBool true);
          ("predictions", PyList []);
          ("total_predictions", PyInt 0)] /\
  forall reason,
    ~ unavailable reason
        [("success", @PyBool Q true);
         ("predictions", PyList []);
         ("total_predictions", PyInt 0)].
Proof.
  split; [reflexivity|]. split; [vm_compute; reflexivity|].
  intros reason (Hsuccess & _). discriminate.
Qed.

(** ** Calls and files of the combinators *)

Create HintDb calls discriminated.

Lemma emits_only_silent {A} Q (m : M A) :
  (forall w, trace (snd (m w)) = trace w) -> emits_only Q m.
Proof.
  intros Hm w. exists []. rewrite Hm, app_nil_r. split; [reflexivity | constructor].
Qed.

Lemma emits_only_ret {A} Q (a : A) : emits_only Q (ret a).
Proof. now apply emits_only_silent. Qed.

Lemma emits_only_raise {A} Q (e : exn) : emits_only Q (@raise A e).
Proof. now apply emits_only_silent. Qed.

Lemma emits_only_lift {A} Q (r : result A) : emits_only Q (lift r).
Proof. now apply emits_only_silent. Qed.

Lemma emits_only_read_file Q path : emits_only Q (read_file path).
Proof.
  apply emits_only_silent. intros w. unfold read_file. now destruct (fs w !! path).
Qed.

Lemma emits_only_put_file Q path data : emits_only Q (put_file path data).
Proof. now apply emits_only_silent. Qed.

Lemma emits_only_os_path_exists Q path : emits_only Q (os_path_exists path).
Proof. now apply emits_only_silent. Qed.

Lemma emits_only_emit (Q : event -> Prop) ev : Q ev -> emits_only Q (emit ev).
Proof. intros Hev w. exists [ev]. split; [reflexivity | now constructor]. Qed.

Lemma emits_only_print (Q : event -> Prop) line :
  Q (Print line) -> emits_only Q (print line).
Proof. apply emits_only_emit. Qed.

Lemma emits_only_os_remove (Q : event -> Prop) path :
  Q (CallRemove path) -> emits_only Q (os_remove path).
Proof.
  intros Hev w. exists [CallRemove path]. unfold os_remove.
  split; [now destruct (fs w !! path) | now constructor].
Qed.

Lemma emits_only_bind_post {A B} (R : A -> Prop) Q (m : M A) (k : A -> M B) :
  returns_only R m -> emits_only Q m -> (forall a, R a -> emits_only Q (k a)) ->
  emits_only Q (bind m k).
Proof.
  intros Hr Hm Hk w. unfold bind. destruct (Hm w) as (ev1 & H1 & Q1).
  destruct (m w) as [[a|e] w1] eqn:Em; cbn [snd] in *.
  - destruct (Hk a (Hr _ _ _ Em) w1) as (ev2 & H2 & Q2). exists (ev1 ++ ev2).
    split; [now rewrite H2, H1, app_assoc | now apply Forall_app].
  - now exists ev1.
Qed.

Lemma emits_only_bind {A B} Q (m : M A) (k : A -> M B) :
  emits_only Q m -> (forall a, emits_only Q (k a)) -> emits_only Q (bind m k).
Proof.
  intros Hm Hk. apply (emits_only_bind_post (fun _ => True)); auto.
  now intros w a w' _.
Qed.

Lemma emits_only_try_except {A} Q (m : M A) (handler : exn -> M A) :
  emits_only Q m -> (forall e, emits_only Q (handler e)) ->
  emits_only Q (try_except m handler).
Proof.
  intros Hm Hh w. unfold try_except. destruct (Hm w) as (ev1 & H1 & Q1).
  destruct (m w) as [[a|e] w1]; cbn [snd] in *.
  - now exists ev1.
  - destruct (Hh e w1) as (ev2 & H2 & Q2). exists (ev1 ++ ev2).
    split; [now rewrite H2, H1, app_assoc | now apply Forall_app].
Qed.

Lemma emits_only_try_finally {A} Q (m : M A) (cleanup : M unit) :
  emits_only Q m -> emits_only Q cleanup -> emits_only Q (try_finally m cleanup).
Proof.
  intros Hm Hc w. unfold try_finally. destruct (Hm w) as (ev1 & H1 & Q1).
  destruct (m w) as [r w1]; cbn [snd] in *.
  destruct (Hc w1) as (ev2 & H2 & Q2). exists (ev1 ++ ev2).
  split; [|now apply Forall_app].
  destruct (cleanup w1) as [[[]|e] w2]; cbn [snd] in *;
    now rewrite H2, H1, app_assoc.
Qed.

#[local] Hint Resolve emits_only_ret emits_only_raise emits_only_lift
  emits_only_read_file emits_only_put_file emits_only_os_path_exists
  emits_only_emit emits_only_print emits_only_os_remove emits_only_bind
  emits_only_try_except emits_only_try_finally : calls.
#[local] Hint Extern 1 (_ = _) => reflexivity : calls.
#[local] Hint Extern 1 True => exact I : calls.

Lemma touches_only_preserves {A} path (m : M A) :
  preserves_fs m -> touches_only path m.
Proof. intros Hm w other _. now rewrite Hm. Qed.

Lemma touches_only_put_file path data : touches_only path (put_file path data).
Proof.
  intros w other Hother. unfold put_file. cbn [snd fs].
  now apply lookup_insert_ne.
Qed.

Lemma touches_only_os_remove path : touches_only path (os_remove path).
Proof.
  intros w other Hother. unfold os_remove.
  destruct (fs w !! path); cbn [snd fs]; [now apply lookup_delete_ne | reflexivity].
Qed.

Lemma touches_only_bind {A B} path (m : M A) (k : A -> M B) :
  touches_only path m -> (forall a, touches_only path (k a)) ->
  touches_only path (bind m k).
Proof.
  intros Hm Hk w other Hother. unfold bind. specialize (Hm w other Hother).
  destruct (m w) as [[a|e] w1]; cbn [snd] in *; [|exact Hm].
  now rewrite Hk.
Qed.

Lemma touches_only_try_except {A} path (m : M A) (handler : exn -> M A) :
  touches_only path m -> (forall e, touches_only path (handler e)) ->
  touches_only path (try_except m handler).
Proof.
  intros Hm Hh w other Hother. unfold try_except. specialize (Hm w other Hother).
  destruct (m w) as [[a|e] w1]; cbn [snd] in *; [exact Hm|].
  now rewrite Hh.
Qed.

Lemma touches_only_try_finally {A} path (m : M A) (cleanup : M unit) :
  touches_only path m -> touches_only path cleanup ->
  touches_only path (try_finally m cleanup).
Proof.
  intros Hm Hc w other Hother. unfold try_finally. specialize (Hm w other Hother).
  destruct (m w) as [r w1]. specialize (Hc w1 other Hother).
  destruct (cleanup w1) as [[[]|e] w2]; cbn [snd] in *; congruence.
Qed.

(** ** More on the framer *)

(** X1.  An artifact determines what it was framed from: two calls of the
    framing step that return the same bytes had the same sample rate and the
    same payload. *)
Theorem frame_injective (sample_rate sample_rate' : Z)
    (payload payload' wav_data : list byte) :
  frame sample_rate payload = Ok wav_data ->
  frame sample_rate' payload' = Ok wav_data ->
  sample_rate = sample_rate' /\ payload = payload'.
Proof.
  assert (Hread : forall rate data,
            frame rate data = Ok wav_data -> framed rate data wav_data).
  { intros rate data Hframe. unfold frame in Hframe.
    destruct (create_wav_header rate (len data)) as [header|e] eqn:Eh;
      [|discriminate].
    apply create_wav_header_Ok_inv in Eh as Hrange.
    pose proof (frame_in_range_eq _ _ Hrange) as Heq. unfold frame in Heq.
    rewrite Eh in Heq. cbn [Res.bind] in *.
    injection Hframe as <-. injection Heq as ->. now apply framed_layout. }
  intros H1 H2. apply Hread in H1, H2. split.
  - rewrite <- (framed_rate _ _ _ H1). apply (framed_rate _ _ _ H2).
  - rewrite <- (framed_payload _ _ _ H1). apply (framed_payload _ _ _ H2).
Qed.

Lemma frame_injective_witness :
  16000 = 16000 /\ body request_user1 = [x01; x00; xff; x7f].
Proof.
  apply (frame_injective 16000 16000 (body request_user1) [x01; x00; xff; x7f]
           (header_user1 ++ body request_user1)).
  - vm_compute. reflexivity.
  - vm_compute. reflexivity.
Defined.

(** ** More on the uploader *)

Section Uploader.

Context {float : Type} (ext : @Externals float).

Lemma upload_to_gcs_ok (path bucket blob credentials_json : string)
    (creds : credentials) (data : list byte) (w : World) :
  os_getenv ext "GOOGLE_APPLICATION_CREDENTIALS_JSON" = Some credentials_json ->
  credentials_json <> "" ->
  decode_credentials ext credentials_json = Ok creds ->
  storage_client ext creds = Ok tt ->
  fs w !! path = Some data ->
  upload_from_filename ext bucket blob data = Ok tt ->
  upload_to_gcs ext path bucket blob w
  = (Ok (locator bucket blob),
     {| fs := fs w;
        trace := trace w ++ [CallDecodeCredentials; CallStorageClient;
                             CallUpload path bucket blob] |}).
Proof.
  intros Hcred Hne Hdecode Hclient Hfile Hupload. unfold upload_to_gcs.
  rewrite Hcred, truthy_str_Some by assumption.
  cbn [negb default from_option id].
  unfold bind, try_except, emit, lift, read_file, ret.
  repeat (cbn [fs trace];
          first [rewrite Hdecode | rewrite Hclient | rewrite Hfile | rewrite Hupload]).
  unfold locator. now rewrite <- !app_assoc.
Qed.

(** X2.  With credentials that decode, a client that can be made and an
    upload that goes through, [upload_to_gcs] returns [gs://bucket/blob]; it
    decodes, makes the client and uploads the bytes of the file, in this
    order, and leaves the files alone. *)
Theorem upload_to_gcs_stores (path bucket blob credentials_json : string)
    (creds : credentials) (data : list byte) (w : World) :
  os_getenv ext "GOOGLE_APPLICATION_CREDENTIALS_JSON" = Some credentials_json ->
  credentials_json <> "" ->
  decode_credentials ext credentials_json = Ok creds ->
  storage_client ext creds = Ok tt ->
  fs w !! path = Some data ->
  upload_from_filename ext bucket blob data = Ok tt ->
  upload_to_gcs ext path bucket blob w
  = (Ok (locator bucket blob),
     {| fs := fs w;
        trace := trace w ++ [CallDecodeCredentials; CallStorageClient;
                             CallUpload path bucket blob] |}).
Proof. apply upload_to_gcs_ok. Qed.

(** X3.  When the credentials cannot be decoded, [upload_to_gcs] raises a
    [ValueError] whose message is ["Failed to decode credentials: "] and the
    text of the decoding error, and it neither makes a client nor uploads. *)
Theorem upload_to_gcs_bad_credentials (path bucket blob credentials_json : string)
    (e : exn) (w : World) :
  os_getenv ext "GOOGLE_APPLICATION_CREDENTIALS_JSON" = Some credentials_json ->
  credentials_json <> "" ->
  decode_credentials ext credentials_json = Raise e ->
  upload_to_gcs ext path bucket blob w
  = (Raise (ValueError ("Failed to decode credentials: " +:+ exn_str e)),
     log CallDecodeCredentials w).
Proof.
  intros Hcred Hne Hdecode. unfold upload_to_gcs.
  rewrite Hcred, truthy_str_Some by assumption.
  cbn [negb default from_option id].
  unfold bind, try_except, emit, lift. now rewrite Hdecode.
Qed.

(** X4.  Credentials that are not set, or set to the empty string, make
    [upload_to_gcs] raise its [ValueError] before anything is decoded or
    called: the world is as it was. *)
Theorem upload_to_gcs_unset_credentials (path bucket blob : string) (w : World) :
  os_getenv ext "GOOGLE_APPLICATION_CREDENTIALS_JSON" = None \/
  os_getenv ext "GOOGLE_APPLICATION_CREDENTIALS_JSON" = Some "" ->
  upload_to_gcs ext path bucket blob w
  = (Raise (ValueError
       "GOOGLE_APPLICATION_CREDENTIALS_JSON environment variable not set"), w).
Proof.
  intros Hcred. apply upload_to_gcs_no_credentials.
  now destruct Hcred as [-> | ->].
Qed.

(** Whatever [upload_to_gcs] returns is the locator of its arguments. *)
Lemma upload_to_gcs_returns_locator path bucket blob :
  returns_only (fun gcs_path => gcs_path = locator bucket blob)
    (upload_to_gcs ext path bucket blob).
Proof.
  unfold upload_to_gcs. destruct (negb _); [auto with effects|].
  auto 16 with effects.
Qed.

End Uploader.

Lemma upload_to_gcs_stores_witness :
  upload_to_gcs ext_all_fine "/tmp/tmpk3v9x2.wav" "omi-audio" "user1.wav"
    (fanout_world ext_all_fine request_user1 header_user1 world0)
  = (Ok (locator "omi-audio" "user1.wav"),
     {| fs := fs (fanout_world ext_all_fine request_user1 header_user1 world0);
        trace := trace (fanout_world ext_all_fine request_user1 header_user1 world0)
                 ++ [CallDecodeCredentials; CallStorageClient;
                     CallUpload "/tmp/tmpk3v9x2.wav" "omi-audio" "user1.wav"] |}).
Proof.
  apply (upload_to_gcs_stores ext_all_fine "/tmp/tmpk3v9x2.wav" "omi-audio"
           "user1.wav" "eyJwcm9qZWN0X2lkIjogIm9taSJ9"
           {| project_id := Some "omi" |} (header_user1 ++ body request_user1)).
  - vm_compute. reflexivity.
  - discriminate.
  - reflexivity.
  - reflexivity.
  - apply (fanout_world_file ext_all_fine).
  - reflexivity.
Defined.

Lemma upload_to_gcs_bad_credentials_witness :
  upload_to_gcs ext_bad_credentials "/tmp/tmpk3v9x2.wav" "omi-audio" "user1.wav"
    world0
  = (Raise (ValueError ("Failed to decode credentials: "
                        +:+ exn_str (Exception "Error" "Incorrect padding"))),
     log CallDecodeCredentials world0).
Proof.
  apply (upload_to_gcs_bad_credentials ext_bad_credentials "/tmp/tmpk3v9x2.wav"
           "omi-audio" "user1.wav" "eyJwcm9qZWN0X2lkIjogIm9taSJ9").
  - vm_compute. reflexivity.
  - discriminate.
  - reflexivity.
Defined.

Lemma upload_to_gcs_unset_credentials_witness :
  upload_to_gcs ext_empty_values "/tmp/tmpk3v9x2.wav" "omi-audio" "user1.wav" world0
  = (Raise (ValueError
       "GOOGLE_APPLICATION_CREDENTIALS_JSON environment variable not set"), world0).
Proof.
  apply (upload_to_gcs_unset_credentials ext_empty_values).
  left. vm_compute. reflexivity.
Defined.

(** ** More on the analyzer *)

Lemma truthy_str_false_inv (s : option string) :
  truthy_str s = false -> s = None \/ s = Some "".
Proof.
  destruct s as [v|]; [|now left]. cbn.
  destruct (String.eqb_spec v ""); [subst; now right | discriminate].
Qed.

Lemma analysis_shape_extract {float : Type} (result : option (@hume_result float)) :
  analysis_shape (extract_prosody result).
Proof.
  unfold extract_prosody.
  destruct result as [[[[prosody|]|]]|];
    [left; eexists; reflexivity | | |]; right; eexists; reflexivity.
Qed.

Lemma analyze_returns_shape {float : Type} (ext : @Externals float) path :
  returns_only analysis_shape (analyze_audio_with_hume ext path).
Proof.
  pose proof (@analysis_shape_extract float).
  unfold analyze_audio_with_hume, hume_session.
  destruct (negb _); [auto with effects|].
  apply returns_only_try_except; [auto 10 with effects|].
  intros e. apply returns_only_bind. intros _. apply returns_only_ret.
  right. eexists. reflexivity.
Qed.

(** X5.  With an API key that is not set or empty the analyzer raises its
    [ValueError] before any call: the world is as it was.  Whatever the
    analyzer returns was made with a key and is one of its two dicts,
    success with the windows and their count or failure with a reason and no
    predictions, and no file has changed. *)
Theorem analyze_key_and_shape {float : Type} (ext : @Externals float)
    (path : string) (w : World) :
  (os_getenv ext "HUME_API_KEY" = None \/ os_getenv ext "HUME_API_KEY" = Some "" ->
   analyze_audio_with_hume ext path w = (Raise hume_key_error, w)) /\
  (forall d w',
     analyze_audio_with_hume ext path w = (Ok d, w') ->
     (exists key, os_getenv ext "HUME_API_KEY" = Some key /\ key <> "") /\
     analysis_shape d /\ fs w' = fs w).
Proof.
  split.
  - intros Hkey. unfold analyze_audio_with_hume.
    now destruct Hkey as [-> | ->].
  - intros d w' Ea.
    pose proof (preserves_fs_analyze ext path w) as Hfs.
    rewrite Ea in Hfs. cbn [snd] in Hfs.
    split; [|split; [eapply analyze_returns_shape, Ea | exact Hfs]].
    destruct (truthy_str (os_getenv ext "HUME_API_KEY")) eqn:Hkey;
      [now apply truthy_str_true_inv|].
    unfold analyze_audio_with_hume in Ea. rewrite Hkey in Ea. discriminate.
Qed.

Lemma analyze_key_and_shape_witness :
  analyze_audio_with_hume ext_empty_values "/tmp/tmpk3v9x2.wav" world0
    = (Raise hume_key_error, world0) /\
  (exists key, os_getenv ext_all_fine "HUME_API_KEY" = Some key /\ key <> "") /\
  analysis_shape (extract_prosody reply_two_windows).
Proof.
  split.
  - apply (analyze_key_and_shape ext_empty_values "/tmp/tmpk3v9x2.wav" world0).
    right. vm_compute. reflexivity.
  - pose proof (proj2 (analyze_key_and_shape ext_all_fine "/tmp/tmpk3v9x2.wav"
                  (fanout_world ext_all_fine request_user1 header_user1 world0))
                  (extract_prosody reply_two_windows)
                  (log (CallHumeSendFile "/tmp/tmpk3v9x2.wav")
                     (log CallHumeConnect
                        (fanout_world ext_all_fine request_user1 header_user1
                           world0)))) as H.
    destruct H as (Hkey & Hshape & _); [vm_compute; reflexivity|].
    split; assumption.
Defined.

(** ** More on the handler *)

Section HandlerOutcomes.

Context {float : Type} (ext : @Externals float).

(** X6.  The statuses the handler issues: when it returns, the body was not
    empty and the status is 200; when it raises an [HTTPException], this is
    the 400 of the empty body, or, for a body that is not empty, a 500 whose
    detail is ["Internal server error: "] and the text of an exception that
    left the outer [try] and is no [HTTPException]. *)
Theorem handle_statuses (request : Request) (w : World) :
  match fst (handle_audio_stream ext request w) with
  | Ok response => body request <> [] /\ status_code response = 200
  | Raise (HTTPException status detail) =>
      (status = 400 /\ body request = [] /\ detail = "No audio data received") \/
      (status = 500 /\ body request <> [] /\
       exists e w1,
         handle_audio_stream_try ext request w = (Raise e, w1) /\
         is_HTTPException e = false /\
         detail = "Internal server error: " +:+ exn_str e)
  | Raise _ => True
  end.
Proof.
  destruct (body request) as [|b rest] eqn:Eb.
  - unfold handle_audio_stream, try_except, handle_audio_stream_try.
    rewrite Eb. cbn. left. now repeat split.
  - assert (Hbody : body request <> []) by congruence.
    unfold handle_audio_stream, try_except.
    destruct (handle_audio_stream_try ext request w) as [[response|e] w1] eqn:E.
    + cbn. split; [discriminate | eapply try_returns_200, E].
    + pose proof (try_raises_no_http ext request Hbody _ _ _ E) as Hkind.
      destruct e; [discriminate | | | |]; cbn; right;
        (split; [reflexivity|]; split; [discriminate|];
         eexists; eexists; split; [reflexivity|]; split; reflexivity).
Qed.

(** X8.  A request with a payload whose sample rate or length does not fit
    the header is answered with a 500 that shows the text of the
    [OverflowError] of the header builder, as soon as that was raised: no
    temporary file is created and no collaborator is called. *)
Theorem handle_header_overflow (request : Request) (w : World) :
  body request <> [] ->
  ~ header_args_in_range (sample_rate request) (len (body request)) ->
  exists msg,
    create_wav_header (sample_rate request) (len (body request))
      = Raise (OverflowError msg) /\
    handle_audio_stream ext request w
    = (Raise (HTTPException 500 ("Internal server error: " +:+ msg)),
       {| fs := fs w;
          trace := trace w ++
                   [CallCreateWavHeader (sample_rate request) (len (body request));
                    Print ("Error processing audio: " +:+ msg)] |}).
Proof.
  intros Hbody Hrange.
  destruct (create_wav_header (sample_rate request) (len (body request)))
    as [header|e] eqn:Eh.
  - now apply create_wav_header_Ok_inv in Eh.
  - destruct (create_wav_header_Raise_inv _ _ _ Eh) as [msg ->]. exists msg.
    split; [reflexivity|].
    unfold handle_audio_stream, try_except, handle_audio_stream_try.
    destruct (body request) as [|b rest]; [congruence|].
    unfold bind at 1, emit at 1. unfold bind at 1, lift at 1. rewrite Eh.
    unfold bind, print, emit, raise. cbn [fs trace exn_str].
    now rewrite <- app_assoc.
Qed.

(** X10.  When the temporary file cannot be created, the request is answered
    with a 500 that shows the error; the files are as they were and no
    collaborator is called. *)
Theorem handle_create_failure (request : Request) (wav_header : list byte)
    (msg : string) (w : World) :
  body request <> [] ->
  create_wav_header (sample_rate request) (len (body request)) = Ok wav_header ->
  tmp_create_error ext = Some msg ->
  handle_audio_stream ext request w
  = (Raise (HTTPException 500 ("Internal server error: " +:+ msg)),
     {| fs := fs w;
        trace := trace w ++
                 [CallCreateWavHeader (sample_rate request) (len (body request));
                  CallNamedTemporaryFile (tmp_name ext);
                  Print ("Error processing audio: " +:+ msg)] |}).
Proof.
  intros Hbody Hheader Hcreate.
  unfold handle_audio_stream, try_except, handle_audio_stream_try.
  destruct (body request) as [|b rest]; [congruence|].
  unfold bind at 1, emit at 1. unfold bind at 1, lift at 1. rewrite Hheader.
  unfold bind at 1, write_temp_file. unfold bind at 1, emit at 1. rewrite Hcreate.
  unfold bind, print, emit, raise. cbn [fs trace exn_str].
  now rewrite <- !app_assoc.
Qed.

(** X9.  When the write of the temporary file fails, the request is answered
    with a 500 that shows the error, and the temporary file is still in
    storage: the handler has not entered the [try] whose [finally] removes
    it, and nothing removes it. *)
Theorem handle_write_failure (request : Request) (wav_header : list byte)
    (msg : string) (w : World) :
  body request <> [] ->
  create_wav_header (sample_rate request) (len (body request)) = Ok wav_header ->
  tmp_create_error ext = None ->
  tmp_write_error ext = Some msg ->
  fst (handle_audio_stream ext request w)
    = Raise (HTTPException 500 ("Internal server error: " +:+ msg)) /\
  is_Some (fs (snd (handle_audio_stream ext request w)) !! tmp_name ext) /\
  trace (snd (handle_audio_stream ext request w))
    = trace w ++
      [CallCreateWavHeader (sample_rate request) (len (body request));
       CallNamedTemporaryFile (tmp_name ext);
       CallWrite (tmp_name ext);
       Print ("Error processing audio: " +:+ msg)].
Proof.
  intros Hbody Hheader Hcreate Hwrite.
  assert (E : handle_audio_stream ext request w
              = (Raise (HTTPException 500 ("Internal server error: " +:+ msg)),
                 {| fs := <[tmp_name ext := []]> (fs w);
                    trace := trace w ++
                      [CallCreateWavHeader (sample_rate request) (len (body request));
                       CallNamedTemporaryFile (tmp_name ext);
                       CallWrite (tmp_name ext);
                       Print ("Error processing audio: " +:+ msg)] |})).
  { unfold handle_audio_stream, try_except, handle_audio_stream_try.
    destruct (body request) as [|b rest]; [congruence|].
    unfold bind at 1, emit at 1. unfold bind at 1, lift at 1. rewrite Hheader.
    unfold bind at 1, write_temp_file. unfold bind at 1, emit at 1. rewrite Hcreate.
    unfold bind at 1, put_file at 1. unfold bind at 1, emit at 1. rewrite Hwrite.
    unfold bind, print, emit, raise. cbn [fs trace exn_str].
    now rewrite <- !app_assoc. }
  rewrite E. cbn [fst snd fs trace].
  split; [reflexivity|]. split; [|reflexivity].
  rewrite lookup_insert_eq. eauto.
Qed.

(** X16.  When the analysis is asked for and the API key is not set or
    empty, the request ends in a 500 right after the analysis was announced:
    the temporary file is removed and the upload is not attempted, whatever
    [save_to_gcs] says. *)
Theorem handle_missing_key (request : Request) (wav_header : list byte)
    (w : World) :
  reaches_fanout ext request wav_header ->
  analyze_emotion request = true ->
  os_getenv ext "HUME_API_KEY" = None \/ os_getenv ext "HUME_API_KEY" = Some "" ->
  handle_audio_stream ext request w
  = (Raise (HTTPException 500
              "Internal server error: HUME_API_KEY environment variable not set"),
     {| fs := delete (tmp_name ext) (fs w);
        trace := trace w ++
                 [CallCreateWavHeader (sample_rate request) (len (body request));
                  CallNamedTemporaryFile (tmp_name ext);
                  CallWrite (tmp_name ext);
                  Print ("Analyzing audio with Hume AI for user " +:+ uid request);
                  CallRemove (tmp_name ext);
                  Print "Error processing audio: HUME_API_KEY environment variable not set"] |}).
Proof.
  intros Hreach Hflag Hkey.
  assert (Hno : truthy_str (os_getenv ext "HUME_API_KEY") = false)
    by now destruct Hkey as [-> | ->].
  assert (Ea : analysis_stage ext request (tmp_name ext)
                 (fanout_world ext request wav_header w)
               = (Raise hume_key_error,
                  analysis_world ext request wav_header w)).
  { unfold analysis_stage, analyze_audio_with_hume. rewrite Hflag, Hno. reflexivity. }
  rewrite (handle_fanout_raises ext request wav_header w _ _ Hreach Ea).
  unfold log, removed, analysis_world, log, fanout_world.
  cbn [fs trace exn_str hume_key_error].
  rewrite !delete_insert_eq. f_equal. f_equal. now rewrite <- !app_assoc.
Qed.

End HandlerOutcomes.

Lemma handle_header_overflow_witness :
  exists msg,
    create_wav_header (sample_rate request_negative_rate)
      (len (body request_negative_rate))
      = Raise (OverflowError msg) /\
    handle_audio_stream ext_all_fine request_negative_rate world0
    = (Raise (HTTPException 500 ("Internal server error: " +:+ msg)),
       {| fs := fs world0;
          trace := trace world0 ++
                   [CallCreateWavHeader (sample_rate request_negative_rate)
                      (len (body request_negative_rate));
                    Print ("Error processing audio: " +:+ msg)] |}).
Proof.
  apply (handle_header_overflow ext_all_fine request_negative_rate world0).
  - discriminate.
  - intros (Hrate & _). vm_compute in Hrate. now destruct Hrate as [Hneg _].
Defined.

(** On the negative rate of the scenario the text is the one of the first
    conversion that fails, the sample rate. *)
Example negative_rate_message :
  fst (handle_audio_stream ext_all_fine request_negative_rate world0)
  = Raise (HTTPException 500
             "Internal server error: can't convert negative int to unsigned").
Proof. vm_compute. reflexivity. Qed.

Lemma handle_create_failure_witness :
  handle_audio_stream ext_no_tmp_dir request_user1 world0
  = (Raise (HTTPException 500
              ("Internal server error: "
               +:+ "[Errno 2] No usable temporary directory found")),
     {| fs := fs world0;
        trace := trace world0 ++
                 [CallCreateWavHeader (sample_rate request_user1)
                    (len (body request_user1));
                  CallNamedTemporaryFile (tmp_name ext_no_tmp_dir);
                  Print ("Error processing audio: "
                         +:+ "[Errno 2] No usable temporary directory found")] |}).
Proof.
  apply (handle_create_failure ext_no_tmp_dir request_user1 header_user1).
  - discriminate.
  - vm_compute. reflexivity.
  - reflexivity.
Defined.

Lemma handle_write_failure_witness :
  fst (handle_audio_stream ext_disk_full request_user1 world0)
    = Raise (HTTPException 500
               ("Internal server error: " +:+ "[Errno 28] No space left on device")) /\
  is_Some (fs (snd (handle_audio_stream ext_disk_full request_user1 world0))
             !! tmp_name ext_disk_full) /\
  trace (snd (handle_audio_stream ext_disk_full request_user1 world0))
    = trace world0 ++
      [CallCreateWavHeader (sample_rate request_user1) (len (body request_user1));
       CallNamedTemporaryFile (tmp_name ext_disk_full);
       CallWrite (tmp_name ext_disk_full);
       Print ("Error processing audio: " +:+ "[Errno 28] No space left on device")].
Proof.
  apply (handle_write_failure ext_disk_full request_user1 header_user1).
  - discriminate.
  - vm_compute. reflexivity.
  - reflexivity.
  - reflexivity.
Defined.

Lemma handle_missing_key_witness :
  handle_audio_stream ext_empty_values request_user1 world0
  = (Raise (HTTPException 500
              "Internal server error: HUME_API_KEY environment variable not set"),
     {| fs := delete (tmp_name ext_empty_values) (fs world0);
        trace := trace world0 ++
                 [CallCreateWavHeader (sample_rate request_user1)
                    (len (body request_user1));
                  CallNamedTemporaryFile (tmp_name ext_empty_values);
                  CallWrite (tmp_name ext_empty_values);
                  Print ("Analyzing audio with Hume AI for user " +:+ uid request_user1);
                  CallRemove (tmp_name ext_empty_values);
                  Print "Error processing audio: HUME_API_KEY environment variable not set"] |}).
Proof.
  apply (handle_missing_key ext_empty_values request_user1 header_user1).
  - split; [discriminate | vm_compute; reflexivity | reflexivity | reflexivity].
  - reflexivity.
  - right. vm_compute. reflexivity.
Defined.

(** ** Calls and files of the handler *)

Section HandlerCalls.

Context {float : Type} (ext : @Externals float).

Lemma write_temp_file_returns_name wav_data :
  returns_only (fun path => path = tmp_name ext) (write_temp_file ext wav_data).
Proof.
  unfold write_temp_file. apply returns_only_bind. intros _.
  destruct (tmp_create_error ext); [auto with effects|].
  apply returns_only_bind. intros _. apply returns_only_bind. intros _.
  destruct (tmp_write_error ext); auto with effects.
Qed.

Lemma touches_only_write_temp_file wav_data :
  touches_only (tmp_name ext) (write_temp_file ext wav_data).
Proof.
  pose proof touches_only_put_file.
  unfold write_temp_file.
  apply touches_only_bind; [apply touches_only_preserves; auto with effects|].
  intros _. destruct (tmp_create_error ext);
    [apply touches_only_preserves; auto with effects|].
  apply touches_only_bind; [auto|]. intros _.
  apply touches_only_bind; [apply touches_only_preserves; auto with effects|].
  intros _. destruct (tmp_write_error ext);
    [apply touches_only_preserves; auto with effects|].
  apply touches_only_bind; [auto|]. intros _.
  apply touches_only_preserves; auto with effects.
Qed.

Lemma touches_only_process_temp_file request filename timestamp :
  touches_only (tmp_name ext)
    (process_temp_file ext request (tmp_name ext) filename timestamp).
Proof.
  unfold process_temp_file. apply touches_only_try_finally.
  - apply touches_only_preserves.
    pose proof (preserves_fs_analysis_stage ext).
    pose proof (preserves_fs_upload_stage ext).
    auto 8 with effects.
  - apply touches_only_bind.
    + apply touches_only_preserves. intros w. reflexivity.
    + intros []; [apply touches_only_os_remove|].
      apply touches_only_preserves; auto with effects.
Qed.

Lemma touches_only_handle request :
  touches_only (tmp_name ext) (handle_audio_stream ext request).
Proof.
  unfold handle_audio_stream. apply touches_only_try_except.
  - unfold handle_audio_stream_try.
    destruct (body request) as [|b l];
      [apply touches_only_preserves; auto with effects|].
    apply touches_only_bind; [apply touches_only_preserves; auto with effects|].
    intros _.
    apply touches_only_bind; [apply touches_only_preserves; auto with effects|].
    intros wav_header.
    intros w other Hother. unfold bind.
    pose proof (touches_only_write_temp_file (wav_header ++ b :: l) w other Hother)
      as Hw.
    destruct (write_temp_file ext (wav_header ++ b :: l) w) as [[path|e] w1] eqn:Ew;
      cbn [snd] in *; [|exact Hw].
    apply write_temp_file_returns_name in Ew as ->.
    now rewrite touches_only_process_temp_file.
  - intros e. apply touches_only_preserves.
    destruct e; auto 6 with effects.
Qed.

(** Which calls the stages make. *)
Lemma emits_only_analyze (Q : event -> Prop) path :
  (forall line, Q (Print line)) ->
  (truthy_str (os_getenv ext "HUME_API_KEY") = true ->
   Q CallHumeConnect /\ Q (CallHumeSendFile path)) ->
  emits_only Q (analyze_audio_with_hume ext path).
Proof.
  intros Hprint Hcalls. unfold analyze_audio_with_hume, hume_session.
  destruct (truthy_str (os_getenv ext "HUME_API_KEY")); cbn [negb];
    [|auto with calls].
  destruct (Hcalls eq_refl) as [Hconnect Hsend]. auto 16 with calls.
Qed.

Lemma emits_only_analysis_stage (Q : event -> Prop) request path :
  (forall line, Q (Print line)) ->
  (analyze_emotion request = true ->
   truthy_str (os_getenv ext "HUME_API_KEY") = true ->
   Q CallHumeConnect /\ Q (CallHumeSendFile path)) ->
  emits_only Q (analysis_stage ext request path).
Proof.
  intros Hprint Hcalls. unfold analysis_stage.
  destruct (analyze_emotion request); [|auto with calls].
  pose proof (emits_only_analyze Q path Hprint (Hcalls eq_refl)).
  auto 8 with calls.
Qed.

Lemma emits_only_upload_stage (Q : event -> Prop) request path filename :
  (forall line, Q (Print line)) ->
  (save_to_gcs request = true ->
   forall bucket, os_getenv ext "GCS_BUCKET_NAME" = Some bucket -> bucket <> "" ->
     Q CallDecodeCredentials /\ Q CallStorageClient /\
     Q (CallUpload path bucket filename)) ->
  emits_only Q (upload_stage ext request path filename).
Proof.
  intros Hprint Hcalls. unfold upload_stage.
  destruct (save_to_gcs request); [|auto with calls].
  destruct (truthy_str (os_getenv ext "GCS_BUCKET_NAME")) eqn:Hbucket; cbn [negb];
    [|auto with calls].
  apply truthy_str_true_inv in Hbucket as (bucket & Hbucket & Hne).
  destruct (Hcalls eq_refl bucket Hbucket Hne) as (Hd & Hc & Hu).
  rewrite Hbucket. cbn [default from_option id].
  unfold upload_to_gcs. destruct (negb _); auto 20 with calls.
Qed.

Lemma emits_only_handle (Q : event -> Prop) request :
  (forall ev, is_hume_call ev = false -> is_storage_call ev = false -> Q ev) ->
  (analyze_emotion request = true ->
   truthy_str (os_getenv ext "HUME_API_KEY") = true ->
   Q CallHumeConnect /\ Q (CallHumeSendFile (tmp_name ext))) ->
  (save_to_gcs request = true ->
   forall bucket, os_getenv ext "GCS_BUCKET_NAME" = Some bucket -> bucket <> "" ->
     Q CallDecodeCredentials /\ Q CallStorageClient /\
     Q (CallUpload (tmp_name ext) bucket (artifact_name ext request))) ->
  emits_only Q (handle_audio_stream ext request).
Proof.
  intros Hother Hhume Hstorage.
  assert (Hprint : forall line, Q (Print line)) by (intros; now apply Hother).
  unfold handle_audio_stream. apply emits_only_try_except.
  2:{ intros []; auto 6 with calls. }
  unfold handle_audio_stream_try.
  destruct (body request) as [|b rest]; [auto with calls|].
  apply emits_only_bind; [apply emits_only_emit; now apply Hother|]. intros _.
  apply emits_only_bind; [auto with calls|]. intros wav_header.
  apply (emits_only_bind_post (fun path => path = tmp_name ext)).
  - apply write_temp_file_returns_name.
  - unfold write_temp_file.
    apply emits_only_bind; [apply emits_only_emit; now apply Hother|]. intros _.
    destruct (tmp_create_error ext); [auto with calls|].
    apply emits_only_bind; [auto with calls|]. intros _.
    apply emits_only_bind; [apply emits_only_emit; now apply Hother|]. intros _.
    destruct (tmp_write_error ext); auto 6 with calls.
  - intros path ->. unfold process_temp_file.
    apply emits_only_try_finally.
    + apply emits_only_bind; [now apply emits_only_analysis_stage|].
      intros hume_results.
      apply emits_only_bind; [|auto with calls].
      now apply emits_only_upload_stage.
    + apply emits_only_bind; [auto with calls|].
      intros []; [|auto with calls].
      apply emits_only_os_remove. now apply Hother.
Qed.

End HandlerCalls.

(** ** The shape of the response *)

Section Response.

Context {float : Type} (ext : @Externals float).

Lemma analysis_stage_returns_entry request path :
  returns_only (analysis_entry request) (analysis_stage ext request path).
Proof.
  unfold analysis_stage, analysis_entry.
  destruct (analyze_emotion request); [|apply returns_only_ret; now left].
  apply returns_only_bind. intros _.
  eapply returns_only_bind_post; [apply analyze_returns_shape|].
  intros d Hd. apply returns_only_bind. intros _. apply returns_only_ret.
  right. eauto.
Qed.

Lemma upload_stage_returns_entry request path :
  returns_only (archive_entry ext request)
    (upload_stage ext request path (artifact_name ext request)).
Proof.
  unfold upload_stage, archive_entry.
  destruct (save_to_gcs request); [|apply returns_only_ret; now left].
  destruct (truthy_str (os_getenv ext "GCS_BUCKET_NAME")) eqn:Hbucket; cbn [negb].
  2:{ apply returns_only_bind. intros _. apply returns_only_ret. now left. }
  apply truthy_str_true_inv in Hbucket as (bucket & Hbucket & Hne).
  rewrite Hbucket. cbn [default from_option id].
  apply returns_only_try_except.
  - eapply returns_only_bind_post; [apply upload_to_gcs_returns_locator|].
    intros gcs_path ->. apply returns_only_bind. intros _. apply returns_only_ret.
    right. eauto.
  - intros e. apply returns_only_bind. intros _. apply returns_only_ret. now left.
Qed.

Lemma handle_returns_built request :
  returns_only
    (fun response =>
       status_code response = 200 /\
       exists gcs_path hume_results,
         content response
           = build_response request (artifact_name ext request)
               (utcnow_strftime ext) gcs_path hume_results /\
         archive_entry ext request gcs_path /\
         analysis_entry request hume_results)
    (handle_audio_stream ext request).
Proof.
  unfold handle_audio_stream. apply returns_only_try_except.
  2:{ intros []; auto 6 with effects. }
  unfold handle_audio_stream_try.
  destruct (body request) as [|b rest]; [auto with effects|].
  apply returns_only_bind. intros _. apply returns_only_bind. intros wav_header.
  apply returns_only_bind. intros path.
  unfold process_temp_file. apply returns_only_try_finally.
  eapply returns_only_bind_post; [apply analysis_stage_returns_entry|].
  intros hume_results Hhume.
  eapply returns_only_bind_post; [apply upload_stage_returns_entry|].
  intros gcs_path Hgcs w response w' [= Hnew _].
  apply new_JSONResponse_Ok_inv in Hnew as [-> _]. cbn [status_code content].
  split; [reflexivity|]. eauto.
Qed.

(** X13.  Every 200 carries, in this order, the message, the artifact name
    [uid_timestamp.wav], the uid, the sample rate, the number of payload
    bytes and the timestamp; then [gcs_path], only when the upload was asked
    for and a bucket is configured, and then it is [gs://bucket/artifact];
    then [hume_analysis], exactly when the analysis was asked for, and then
    it is one of the two dicts of the analyzer. *)
Theorem response_layout (request : Request) (w : World) (response : JSONResponse) :
  fst (handle_audio_stream ext request w) = Ok response ->
  status_code response = 200 /\
  exists archive analysis,
    content response = base_fields ext request ++ archive ++ analysis /\
    (archive = [] \/
     save_to_gcs request = true /\
     exists bucket,
       os_getenv ext "GCS_BUCKET_NAME" = Some bucket /\
       archive = [("gcs_path",
                   PyStr (locator bucket (artifact_name ext request)))]) /\
    (analyze_emotion request = false /\ analysis = [] \/
     analyze_emotion request = true /\
     exists d, analysis_shape d /\ analysis = [("hume_analysis", PyDict d)]).
Proof.
  intros Hok.
  destruct (handle_audio_stream ext request w) as [r w'] eqn:E.
  cbn [fst] in Hok. subst r.
  apply handle_returns_built in E as (Hstatus & gcs_path & hume_results & Hc & Hg & Ha).
  split; [exact Hstatus|]. rewrite Hc.
  assert (Hentry : forall d : @dict float,
            analysis_shape d -> exists entry rest, d = entry :: rest).
  { intros d [[windows ->] | [reason ->]]; eauto. }
  destruct Hg as [-> | (Hsave & bucket & Hbucket & Hne & ->)];
    destruct Ha as [[Hflag ->] | (Hflag & d & -> & Hd)].
  - exists [], []. split; [reflexivity|]. split; [now left | left; now split].
  - destruct (Hentry d Hd) as (entry & rest & ->).
    exists [], [("hume_analysis", PyDict (entry :: rest))].
    split; [reflexivity|]. split; [now left|]. right. split; [exact Hflag|]. eauto.
  - exists [("gcs_path", PyStr (locator bucket (artifact_name ext request)))], [].
    split; [reflexivity|]. split; [right; eauto | left; now split].
  - destruct (Hentry d Hd) as (entry & rest & ->).
    exists [("gcs_path", PyStr (locator bucket (artifact_name ext request)))],
           [("hume_analysis", PyDict (entry :: rest))].
    split; [reflexivity|]. split; [right; eauto|].
    right. split; [exact Hflag|]. eauto.
Qed.

(** X11.  With [analyze_emotion] off the handler makes no call to Hume, and
    a response has no [hume_analysis]. *)
Theorem analysis_off_no_hume (request : Request) (w : World) :
  analyze_emotion request = false ->
  (exists events,
     trace (snd (handle_audio_stream ext request w)) = trace w ++ events /\
     Forall (fun ev => is_hume_call ev = false) events) /\
  (forall response,
     fst (handle_audio_stream ext request w) = Ok response ->
     dict_get (content response) "hume_analysis" = None).
Proof.
  intros Hflag. split.
  - apply (emits_only_handle ext (fun ev => is_hume_call ev = false)).
    + auto.
    + intros Hon. congruence.
    + intros _ bucket _ _. repeat split.
  - intros response Hok.
    destruct (handle_audio_stream ext request w) as [r w'] eqn:E.
    cbn [fst] in Hok. subst r.
    apply handle_returns_built in E as (_ & gcs_path & hume_results & -> & _ & Ha).
    rewrite build_response_hume_analysis.
    destruct Ha as [[_ ->] | [Hon _]]; [reflexivity | congruence].
Qed.

(** X12.  With [save_to_gcs] off, or with a bucket name that is not set or
    empty, the handler neither decodes credentials nor makes a storage client
    nor uploads, and a response has no [gcs_path]. *)
Theorem archive_off_no_storage (request : Request) (w : World) :
  save_to_gcs request = false \/
  truthy_str (os_getenv ext "GCS_BUCKET_NAME") = false ->
  (exists events,
     trace (snd (handle_audio_stream ext request w)) = trace w ++ events /\
     Forall (fun ev => is_storage_call ev = false) events) /\
  (forall response,
     fst (handle_audio_stream ext request w) = Ok response ->
     dict_get (content response) "gcs_path" = None).
Proof.
  intros Hoff. split.
  - apply (emits_only_handle ext (fun ev => is_storage_call ev = false)).
    + auto.
    + intros _ _. repeat split.
    + intros Hon bucket Hbucket Hne. destruct Hoff as [Hoff | Hoff]; [congruence|].
      rewrite Hbucket, truthy_str_Some in Hoff by assumption. discriminate.
  - intros response Hok.
    destruct (handle_audio_stream ext request w) as [r w'] eqn:E.
    cbn [fst] in Hok. subst r.
    apply handle_returns_built in E as (_ & gcs_path & hume_results & -> & Hg & _).
    rewrite build_response_gcs_path.
    destruct Hg as [-> | (Hon & bucket & Hbucket & Hne & _)]; [reflexivity|].
    destruct Hoff as [Hoff | Hoff]; [congruence|].
    rewrite Hbucket, truthy_str_Some in Hoff by assumption. discriminate.
Qed.

(** X15.  Whatever happens, the two consumers are pointed at the temporary
    file of this request: every [send_file] names it, and every upload names
    it together with the bucket of the environment and the artifact name
    that the response reports. *)
Theorem consumers_read_the_artifact (request : Request) (w : World) :
  exists events,
    trace (snd (handle_audio_stream ext request w)) = trace w ++ events /\
    Forall (call_on_artifact ext request) events.
Proof.
  apply (emits_only_handle ext (call_on_artifact ext request)).
  - intros [] Hh Hs; try exact I; discriminate.
  - intros _ _. split; [exact I | reflexivity].
  - intros _ bucket Hbucket _. repeat split; assumption.
Qed.

(** X7.  On every path, failing or not, the handler leaves every file but
    its own temporary file as it was. *)
Theorem other_files_untouched (request : Request) (w : World) (other : string) :
  other <> tmp_name ext ->
  fs (snd (handle_audio_stream ext request w)) !! other = fs w !! other.
Proof. intros Hother. now apply touches_only_handle. Qed.

End Response.

(** ** A request that goes through *)

Section EndToEnd.

Context {float : Type} (ext : @Externals float).

Lemma upload_stage_ok request path filename w bucket gcs_path w1 :
  save_to_gcs request = true ->
  os_getenv ext "GCS_BUCKET_NAME" = Some bucket -> bucket <> "" ->
  upload_to_gcs ext path bucket filename w = (Ok gcs_path, w1) ->
  upload_stage ext request path filename w
  = (Ok (Some gcs_path),
     log (Print ("Audio file uploaded successfully: " +:+ gcs_path)) w1).
Proof.
  intros Hflag Hbucket Hne Hup. unfold upload_stage.
  rewrite Hflag, Hbucket, truthy_str_Some by assumption.
  cbn [negb default from_option id].
  unfold try_except, bind at 1. now rewrite Hup.
Qed.


End EndToEnd.


Lemma response_layout_witness :
  status_code {| status_code := 200;
                 content := base_fields ext_all_fine request_user1 ++
                   [("gcs_path",
                     PyStr (locator "omi-audio"
                              (artifact_name ext_all_fine request_user1)));
                    ("hume_analysis", PyDict (extract_prosody reply_two_windows))] |}
    = 200 /\
  exists archive analysis,
    content {| status_code := 200;
               content := base_fields ext_all_fine request_user1 ++
                 [("gcs_path",
                   PyStr (locator "omi-audio"
                            (artifact_name ext_all_fine request_user1)));
                  ("hume_analysis", PyDict (extract_prosody reply_two_windows))] |}
      = base_fields ext_all_fine request_user1 ++ archive ++ analysis /\
    (archive = [] \/
     save_to_gcs request_user1 = true /\
     exists bucket,
       os_getenv ext_all_fine "GCS_BUCKET_NAME" = Some bucket /\
       archive = [("gcs_path",
                   PyStr (locator bucket (artifact_name ext_all_fine request_user1)))]) /\
    (analyze_emotion request_user1 = false /\ analysis = [] \/
     analyze_emotion request_user1 = true /\
     exists d, analysis_shape d /\ analysis = [("hume_analysis", PyDict d)]).
Proof.
  apply (response_layout ext_all_fine request_user1 world0).
  vm_compute. reflexivity.
Defined.

Lemma analysis_off_no_hume_witness :
  (exists events,
     trace (snd (handle_audio_stream ext_all_fine request_archive_only world0))
       = trace world0 ++ events /\
     Forall (fun ev => is_hume_call ev = false) events) /\
  (forall response,
     fst (handle_audio_stream ext_all_fine request_archive_only world0) = Ok response ->
     dict_get (content response) "hume_analysis" = None).
Proof.
  apply (analysis_off_no_hume ext_all_fine request_archive_only world0).
  reflexivity.
Defined.

Lemma archive_off_no_storage_witness :
  (exists events,
     trace (snd (handle_audio_stream ext_all_fine request_analysis_only world0))
       = trace world0 ++ events /\
     Forall (fun ev => is_storage_call ev = false) events) /\
  (forall response,
     fst (handle_audio_stream ext_all_fine request_analysis_only world0) = Ok response ->
     dict_get (content response) "gcs_path" = None).
Proof.
  apply (archive_off_no_storage ext_all_fine request_analysis_only world0).
  left. reflexivity.
Defined.

Lemma other_files_untouched_witness :
  fs (snd (handle_audio_stream ext_upload_denied request_user1 world_other_file))
    !! "/var/data/keep.bin"
  = fs world_other_file !! "/var/data/keep.bin".
Proof.
  apply (other_files_untouched ext_upload_denied request_user1 world_other_file).
  discriminate.
Defined.

(** ** A failed analysis and the upload *)

(** X17.  A failure of the analysis does not keep the upload from running:
    when the session with Hume raises and the storage side is configured and
    answers, the response carries both the locator of the uploaded artifact
    and the failure dict of the analysis, and the bucket received the bytes
    [header + payload]. *)
Theorem upload_after_failed_analysis {float : Type} (ext : @Externals float)
    (request : Request) (wav_header : list byte) (w w1 : World)
    (key bucket credentials_json : string) (creds : credentials) (e : exn) :
  reaches_fanout ext request wav_header ->
  analyze_emotion request = true ->
  save_to_gcs request = true ->
  os_getenv ext "HUME_API_KEY" = Some key -> key <> "" ->
  hume_session ext key (tmp_name ext) (analysis_world ext request wav_header w)
    = (Raise e, w1) ->
  os_getenv ext "GCS_BUCKET_NAME" = Some bucket -> bucket <> "" ->
  os_getenv ext "GOOGLE_APPLICATION_CREDENTIALS_JSON" = Some credentials_json ->
  credentials_json <> "" ->
  decode_credentials ext credentials_json = Ok creds ->
  storage_client ext creds = Ok tt ->
  upload_from_filename ext bucket (artifact_name ext request)
    (wav_header ++ body request) = Ok tt ->
  fst (handle_audio_stream ext request w)
  = Ok {| status_code := 200;
          content :=
            base_fields ext request ++
            [("gcs_path", PyStr (locator bucket (artifact_name ext request)));
             ("hume_analysis", PyDict (analysis_failed e))] |}.
Proof.
  intros Hreach Hanalyze Hsave Hkey Hkne Hsession Hbucket Hbne Hcred Hcne
         Hdecode Hclient Hupload.
  pose proof (analyze_session_raises ext _ _ _ _ _ Hkey Hkne Hsession) as Ha.
  pose proof (analysis_stage_enabled ext request _ _ _ _ Hanalyze Ha) as Hstage.
  match type of Hstage with _ = (_, ?w2) => set (w_analysed := w2) in * end.
  assert (Hfile : fs w_analysed !! tmp_name ext = Some (wav_header ++ body request)).
  { subst w_analysed. unfold log. cbn [fs].
    pose proof (preserves_fs_hume_session ext key (tmp_name ext)
                  (analysis_world ext request wav_header w)) as Hfs.
    rewrite Hsession in Hfs. cbn [snd] in Hfs. rewrite Hfs.
    apply fanout_world_file. }
  pose proof (upload_to_gcs_ok ext (tmp_name ext) bucket (artifact_name ext request)
                credentials_json creds _ w_analysed
                Hcred Hcne Hdecode Hclient Hfile Hupload) as Hup.
  pose proof (upload_stage_ok ext request _ _ _ _ _ _ Hsave Hbucket Hbne Hup) as Hu.
  rewrite (handle_fanout_returns ext request wav_header w _ _ _ _ Hreach Hstage Hu
             (finite_floats_analysis_failed ext e)).
  reflexivity.
Qed.

Lemma upload_after_failed_analysis_witness :
  fst (handle_audio_stream ext_hume_down request_user1 world0)
  = Ok {| status_code := 200;
          content :=
            base_fields ext_hume_down request_user1 ++
            [("gcs_path",
              PyStr (locator "omi-audio" (artifact_name ext_hume_down request_user1)));
             ("hume_analysis",
              PyDict (analysis_failed
                        (Exception "ConnectionError" "connection refused")))] |}.
Proof.
  eapply (upload_after_failed_analysis ext_hume_down request_user1 header_user1
            world0 _ "hume-key" "omi-audio" "eyJwcm9qZWN0X2lkIjogIm9taSJ9"
            {| project_id := Some "omi" |}).
  - split; [discriminate | vm_compute; reflexivity | reflexivity | reflexivity].
  - reflexivity.
  - reflexivity.
  - vm_compute. reflexivity.
  - discriminate.
  - vm_compute. reflexivity.
  - vm_compute. reflexivity.
  - discriminate.
  - vm_compute. reflexivity.
  - discriminate.
  - reflexivity.
  - reflexivity.
  - reflexivity.
Defined.

(** ** A response that cannot be rendered *)

(** X19.  When the analysis that goes into the response holds a float that
    [json] refuses (a NaN or infinite score or time of the reply), building
    the [JSONResponse] raises inside the [try]: the request is answered with
    a 500 that shows the text of that [ValueError], after the analysis and
    the upload have run, and the temporary file is removed. *)
Theorem handle_unrenderable_analysis {float : Type} (ext : @Externals float)
    (request : Request) (wav_header : list byte) (w w1 w2 : World)
    (d : dict) (gcs_path : option string) (x : float) :
  reaches_fanout ext request wav_header ->
  analysis_stage ext request (tmp_name ext) (fanout_world ext request wav_header w)
    = (Ok (Some d), w1) ->
  upload_stage ext request (tmp_name ext) (artifact_name ext request) w1
    = (Ok gcs_path, w2) ->
  first_nonfinite ext (PyDict d) = Some x ->
  handle_audio_stream ext request w =
  (Raise (HTTPException 500 ("Internal server error: " +:+ json_float_error ext x)),
   log (Print ("Error processing audio: " +:+ json_float_error ext x))
       (removed (tmp_name ext) w2)).
Proof. apply handle_fanout_unrenderable. Qed.

Lemma handle_unrenderable_analysis_witness :
  handle_audio_stream ext_nan_score request_user1 world0 =
  (Raise (HTTPException 500
            ("Internal server error: " +:+ json_float_error ext_nan_score NaN)),
   log (Print ("Error processing audio: " +:+ json_float_error ext_nan_score NaN))
       (removed (tmp_name ext_nan_score)
          {| fs := fs (fanout_world ext_nan_score request_user1 header_user1 world0);
             trace :=
               [CallCreateWavHeader 16000 4;
                CallNamedTemporaryFile "/tmp/tmpk3v9x2.wav";
                CallWrite "/tmp/tmpk3v9x2.wav";
                Print "Analyzing audio with Hume AI for user user1";
                CallHumeConnect;
                CallHumeSendFile "/tmp/tmpk3v9x2.wav";
                Print "Hume analysis complete: 1 predictions";
                CallDecodeCredentials;
                CallStorageClient;
                CallUpload "/tmp/tmpk3v9x2.wav" "omi-audio"
                  "user1_20240101_120000_000001.wav";
                Print "Audio file uploaded successfully: gs://omi-audio/user1_20240101_120000_000001.wav"] |})).
Proof.
  eapply (handle_unrenderable_analysis ext_nan_score request_user1 header_user1
            world0 _ _ (extract_prosody reply_nan_score)
            (Some "gs://omi-audio/user1_20240101_120000_000001.wav") NaN).
  - split; [discriminate | vm_compute; reflexivity | reflexivity | reflexivity].
  - vm_compute. reflexivity.
  - vm_compute. reflexivity.
  - vm_compute. reflexivity.
Defined.
